(** * PrivateIncomeVerification: the request / approval / deactivation registry

    A shallow embedding of [contracts/PrivateIncomeVerification.sol].
    Storage mappings are finite maps read with Solidity's zero default,
    [uint256] values are integers with the checked arithmetic of
    Solidity 0.8 written out, and every external function is a
    computation over the contract state that either finishes or reverts.
    A reverted computation keeps the storage it had reached, so that the
    order of checks and writes stays visible; [external_call] then applies
    the rollback of the execution host. *)

From stdpp Require Import base option list gmap strings relations.
From Stdlib Require Import ZArith Lia Sorted.

Local Open Scope string_scope.
Local Open Scope list_scope.
Local Open Scope Z_scope.

(** ** Machine types *)

Definition address := Z.
Definition uint256_max : Z := 2 ^ 256 - 1.

(** [365 days] in seconds. *)
Definition days : Z := 86400.
Definition MIN_VERIFICATION_THRESHOLD : Z := 1000.
Definition VERIFICATION_VALIDITY_PERIOD : Z := 365 * days.

(** An [euint8] is a handle on a ciphertext kept by the FHE coprocessor.
    The handle of a trivially encrypted value is determined by that value;
    the null handle is what fresh storage holds. *)
Inductive euint8 : Type :=
| euint8_null
| euint8_of (plaintext : Z).

(** Who may use a handle: the contract itself or an account. *)
Inductive grantee : Type :=
| This
| Account (a : address).

Module FHE.
Definition asEuint8 (v : Z) : euint8 := euint8_of v.
End FHE.

(** ** Storage layout *)

Record IncomeVerification : Type := mkIncomeVerification {
  encryptedIncomeLevel : euint8;
  encryptedEmploymentMonths : euint8;
  isVerified : bool;
  isActive : bool;
  verificationTime : Z;
  expiryTime : Z;
  employerHash : string;
  verifiedUser : address
}.

Record VerificationRequest : Type := mkVerificationRequest {
  requester : address;
  claimedIncomeLevel : euint8;
  employmentDuration : euint8;
  isPending : bool;
  requestTime : Z;
  documentHash : string
}.

Inductive event : Type :=
| VerificationRequested (requestId : Z) (who : address) (timestamp : Z)
| IncomeVerified (verificationId : Z) (user : address) (timestamp : Z)
                 (meetsThreshold : bool)
| VerificationExpired (verificationId : Z) (user : address)
| ThresholdVerification (verificationId : Z) (user : address) (qualified : bool).

Record state : Type := mkState {
  verificationAuthority : address;
  verificationCount : Z;
  verifications : gmap Z IncomeVerification;
  userVerifications : gmap Z (list Z);
  verificationRequests : gmap Z VerificationRequest;
  userRequests : gmap Z (list Z);
  requestCounter : Z;
  (** grants recorded by [FHE.allow] and [FHE.allowThis] *)
  acl : list (euint8 * grantee);
  (** the log of emitted events, oldest first *)
  events : list event
}.

(** What the host supplies to a call. *)
Record env : Type := mkEnv {
  msg_sender : address;
  block_timestamp : Z
}.

Definition zero_verification : IncomeVerification :=
  mkIncomeVerification euint8_null euint8_null false false 0 0 "" 0.

Definition zero_request : VerificationRequest :=
  mkVerificationRequest 0 euint8_null euint8_null false 0 "".

(** Reading a mapping: an absent key reads as the zero value. *)
Definition verification_at (s : state) (id : Z) : IncomeVerification :=
  default zero_verification (verifications s !! id).

Definition request_at (s : state) (id : Z) : VerificationRequest :=
  default zero_request (verificationRequests s !! id).

Definition user_verifications_at (s : state) (u : address) : list Z :=
  default [] (userVerifications s !! u).

Definition user_requests_at (s : state) (u : address) : list Z :=
  default [] (userRequests s !! u).

(** Field writes. *)
Definition set_isActive (b : bool) (v : IncomeVerification) : IncomeVerification :=
  mkIncomeVerification (encryptedIncomeLevel v) (encryptedEmploymentMonths v)
    (isVerified v) b (verificationTime v) (expiryTime v) (employerHash v)
    (verifiedUser v).

Definition set_isPending (b : bool) (r : VerificationRequest) : VerificationRequest :=
  mkVerificationRequest (requester r) (claimedIncomeLevel r) (employmentDuration r)
    b (requestTime r) (documentHash r).

Definition with_authority (a : address) (s : state) : state :=
  mkState a (verificationCount s) (verifications s) (userVerifications s)
    (verificationRequests s) (userRequests s) (requestCounter s) (acl s) (events s).

Definition with_verificationCount (n : Z) (s : state) : state :=
  mkState (verificationAuthority s) n (verifications s) (userVerifications s)
    (verificationRequests s) (userRequests s) (requestCounter s) (acl s) (events s).

Definition with_verifications (m : gmap Z IncomeVerification) (s : state) : state :=
  mkState (verificationAuthority s) (verificationCount s) m (userVerifications s)
    (verificationRequests s) (userRequests s) (requestCounter s) (acl s) (events s).

Definition with_userVerifications (m : gmap Z (list Z)) (s : state) : state :=
  mkState (verificationAuthority s) (verificationCount s) (verifications s) m
    (verificationRequests s) (userRequests s) (requestCounter s) (acl s) (events s).

Definition with_verificationRequests (m : gmap Z VerificationRequest) (s : state) : state :=
  mkState (verificationAuthority s) (verificationCount s) (verifications s)
    (userVerifications s) m (userRequests s) (requestCounter s) (acl s) (events s).

Definition with_userRequests (m : gmap Z (list Z)) (s : state) : state :=
  mkState (verificationAuthority s) (verificationCount s) (verifications s)
    (userVerifications s) (verificationRequests s) m (requestCounter s) (acl s)
    (events s).

Definition with_requestCounter (n : Z) (s : state) : state :=
  mkState (verificationAuthority s) (verificationCount s) (verifications s)
    (userVerifications s) (verificationRequests s) (userRequests s) n (acl s)
    (events s).

Definition with_acl (l : list (euint8 * grantee)) (s : state) : state :=
  mkState (verificationAuthority s) (verificationCount s) (verifications s)
    (userVerifications s) (verificationRequests s) (userRequests s)
    (requestCounter s) l (events s).

Definition with_events (l : list event) (s : state) : state :=
  mkState (verificationAuthority s) (verificationCount s) (verifications s)
    (userVerifications s) (verificationRequests s) (userRequests s)
    (requestCounter s) (acl s) l.

(** ** Contract computations *)

(** A call stops with the message of a failed [require], with a panic
    code of the compiler's own checks (0x11 for arithmetic overflow), or
    with a revert that carries no data, as the generated getter of a public
    array does for an index out of bounds. *)
Inductive failure : Type :=
| Error (message : string)
| Panic (code : Z)
| NoData.

Inductive outcome (A : Type) : Type :=
| Done (a : A)
| Revert (f : failure).
Arguments Done {A} a.
Arguments Revert {A} f.

Definition M (A : Type) : Type := state -> outcome A * state.

#[global] Instance M_ret : MRet M := fun A a s => (Done a, s).

#[global] Instance M_bind : MBind M := fun A B k m s =>
  match m s with
  | (Done a, s') => k a s'
  | (Revert f, s') => (Revert f, s')
  end.

#[global] Instance M_fmap : FMap M := fun A B f m s =>
  match m s with
  | (Done a, s') => (Done (f a), s')
  | (Revert x, s') => (Revert x, s')
  end.

Definition require (b : bool) (message : string) : M unit :=
  fun s => if b then (Done tt, s) else (Revert (Error message), s).

Definition panic {A} (code : Z) : M A := fun s => (Revert (Panic code), s).

Definition revert_empty {A} : M A := fun s => (Revert NoData, s).

Definition read {A} (f : state -> A) : M A := fun s => (Done (f s), s).

Definition write (f : state -> state) : M unit := fun s => (Done tt, f s).

Definition emit (e : event) : M unit :=
  write (fun s => with_events (events s ++ [e]) s).

(** [a + b] on [uint256], as Solidity 0.8 compiles it. *)
Definition checked_add (a b : Z) : M Z :=
  if a + b <=? uint256_max then mret (a + b) else panic 17.

(** The host's treatment of an external call: a revert restores the
    state the call started from. *)
Definition external_call {A} (m : M A) (s : state) : outcome A * state :=
  match m s with
  | (Done a, s') => (Done a, s')
  | (Revert f, _) => (Revert f, s)
  end.

Module FHEAcl.
Definition allowThis (h : euint8) : M unit :=
  write (fun s => with_acl (acl s ++ [(h, This)]) s).
Definition allow (h : euint8) (a : address) : M unit :=
  write (fun s => with_acl (acl s ++ [(h, Account a)]) s).
End FHEAcl.

(** ** Modifiers *)

Definition onlyAuthority (e : env) : M unit :=
  auth ← read verificationAuthority;
  require (bool_decide (msg_sender e = auth)) "Not authorized".

Definition validVerification (e : env) (_verificationId : Z) : M unit :=
  count ← read verificationCount;
  require (_verificationId <? count) "Invalid verification ID";;
  active ← read (fun s => isActive (verification_at s _verificationId));
  require active "Verification not active";;
  expiry ← read (fun s => expiryTime (verification_at s _verificationId));
  require (block_timestamp e <=? expiry) "Verification expired".

(** ** Constructor and external functions

    Arguments of type [uint8], [uint256] and [address] are passed as
    integers; the ABI decoder admits only values of the type's range, and
    no statement below depends on that restriction. *)

Definition constructor (e : env) : state :=
  mkState (msg_sender e) 0 ∅ ∅ ∅ ∅ 0 [] [].

Definition requestIncomeVerification (e : env)
    (_incomeLevel _employmentMonths : Z) (_documentHash : string) : M unit :=
  require (0 <? _incomeLevel) "Income level must be greater than 0";;
  require (0 <? _employmentMonths) "Employment duration must be greater than 0";;
  require (0 <? Z.of_nat (String.length _documentHash)) "Document hash required";;
  let encIncomeLevel := FHE.asEuint8 _incomeLevel in
  let encEmploymentMonths := FHE.asEuint8 _employmentMonths in
  write (fun s => with_verificationRequests
    (<[requestCounter s :=
         mkVerificationRequest (msg_sender e) encIncomeLevel encEmploymentMonths
           true (block_timestamp e) _documentHash]> (verificationRequests s)) s);;
  write (fun s => with_userRequests
    (<[msg_sender e := user_requests_at s (msg_sender e) ++ [requestCounter s]]>
       (userRequests s)) s);;
  FHEAcl.allowThis encIncomeLevel;;
  FHEAcl.allowThis encEmploymentMonths;;
  FHEAcl.allow encIncomeLevel (msg_sender e);;
  FHEAcl.allow encEmploymentMonths (msg_sender e);;
  rc ← read requestCounter;
  emit (VerificationRequested rc (msg_sender e) (block_timestamp e));;
  rc' ← checked_add rc 1;
  write (with_requestCounter rc').

Definition _checkIncomeThreshold (_verificationId : Z) : M unit :=
  verification ← read (fun s => verification_at s _verificationId);
  emit (ThresholdVerification _verificationId (verifiedUser verification) true).

Definition processVerificationRequest (e : env)
    (_requestId : Z) (_employerHash : string) (_isApproved : bool) : M unit :=
  onlyAuthority e;;
  rc ← read requestCounter;
  require (_requestId <? rc) "Invalid request ID";;
  pending ← read (fun s => isPending (request_at s _requestId));
  require pending "Request not pending";;
  require (0 <? Z.of_nat (String.length _employerHash)) "Employer hash required";;
  write (fun s => with_verificationRequests
    (<[_requestId := set_isPending false (request_at s _requestId)]>
       (verificationRequests s)) s);;
  if _isApproved then
    request ← read (fun s => request_at s _requestId);
    vc ← read verificationCount;
    expiry ← checked_add (block_timestamp e) VERIFICATION_VALIDITY_PERIOD;
    write (fun s => with_verifications
      (<[vc := mkIncomeVerification (claimedIncomeLevel request)
                 (employmentDuration request) true true (block_timestamp e)
                 expiry _employerHash (requester request)]> (verifications s)) s);;
    write (fun s => with_userVerifications
      (<[requester request :=
           user_verifications_at s (requester request) ++ [vc]]>
         (userVerifications s)) s);;
    _checkIncomeThreshold vc;;
    emit (IncomeVerified vc (requester request) (block_timestamp e) true);;
    vc' ← checked_add vc 1;
    write (with_verificationCount vc')
  else mret tt.

Definition verifyIncomeThreshold (e : env)
    (_verificationId : Z) (_requiredLevel : Z) : M bool :=
  validVerification e _verificationId;;
  verification ← read (fun s => verification_at s _verificationId);
  auth ← read verificationAuthority;
  require (bool_decide (verifiedUser verification = msg_sender e)
           || bool_decide (msg_sender e = auth)) "Not authorized";;
  mret true.

Definition compareIncomes (e : env)
    (_verificationId1 _verificationId2 : Z) : M bool :=
  validVerification e _verificationId1;;
  validVerification e _verificationId2;;
  v1 ← read (fun s => verification_at s _verificationId1);
  v2 ← read (fun s => verification_at s _verificationId2);
  auth ← read verificationAuthority;
  require (bool_decide (verifiedUser v1 = msg_sender e)
           || bool_decide (verifiedUser v2 = msg_sender e)
           || bool_decide (msg_sender e = auth)) "Not authorized";;
  mret true.

(** The tuple returned by [getVerificationInfo]. *)
Record VerificationInfo : Type := mkVerificationInfo {
  info_isVerified : bool;
  info_isActive : bool;
  info_verificationTime : Z;
  info_expiryTime : Z;
  info_employerHash : string;
  info_verifiedUser : address
}.

Definition getVerificationInfo (e : env) (_verificationId : Z)
    : M VerificationInfo :=
  validVerification e _verificationId;;
  verification ← read (fun s => verification_at s _verificationId);
  auth ← read verificationAuthority;
  require (bool_decide (verifiedUser verification = msg_sender e)
           || bool_decide (msg_sender e = auth)) "Not authorized";;
  mret (mkVerificationInfo (isVerified verification) (isActive verification)
         (verificationTime verification) (expiryTime verification)
         (employerHash verification) (verifiedUser verification)).

Definition getUserVerifications (e : env) (_user : address) : M (list Z) :=
  auth ← read verificationAuthority;
  require (bool_decide (_user = msg_sender e)
           || bool_decide (msg_sender e = auth)) "Not authorized";;
  read (fun s => user_verifications_at s _user).

Definition getUserRequests (e : env) (_user : address) : M (list Z) :=
  auth ← read verificationAuthority;
  require (bool_decide (_user = msg_sender e)
           || bool_decide (msg_sender e = auth)) "Not authorized";;
  read (fun s => user_requests_at s _user).

(** The tuple returned by [getRequestInfo]. *)
Record RequestInfo : Type := mkRequestInfo {
  info_requester : address;
  info_isPending : bool;
  info_requestTime : Z;
  info_documentHash : string
}.

Definition getRequestInfo (e : env) (_requestId : Z) : M RequestInfo :=
  rc ← read requestCounter;
  require (_requestId <? rc) "Invalid request ID";;
  request ← read (fun s => request_at s _requestId);
  auth ← read verificationAuthority;
  require (bool_decide (requester request = msg_sender e)
           || bool_decide (msg_sender e = auth)) "Not authorized";;
  mret (mkRequestInfo (requester request) (isPending request)
         (requestTime request) (documentHash request)).

Definition deactivateVerification (e : env) (_verificationId : Z) : M unit :=
  validVerification e _verificationId;;
  verification ← read (fun s => verification_at s _verificationId);
  auth ← read verificationAuthority;
  require (bool_decide (verifiedUser verification = msg_sender e)
           || bool_decide (msg_sender e = auth)) "Not authorized";;
  write (fun s => with_verifications
    (<[_verificationId := set_isActive false (verification_at s _verificationId)]>
       (verifications s)) s);;
  emit (VerificationExpired _verificationId (verifiedUser verification)).

Definition updateVerificationAuthority (e : env) (_newAuthority : address)
    : M unit :=
  onlyAuthority e;;
  require (negb (bool_decide (_newAuthority = 0))) "Invalid authority address";;
  write (with_authority _newAuthority).

Definition isVerificationValid (e : env) (_verificationId : Z) : M bool :=
  count ← read verificationCount;
  if count <=? _verificationId then mret false
  else
    verification ← read (fun s => verification_at s _verificationId);
    mret (isActive verification
         && isVerified verification
         && (block_timestamp e <=? expiryTime verification)).

(** The two counting loops, [i] running from [0] to the counter. *)
Definition getActiveVerificationCount (e : env) : M Z :=
  read (fun s =>
    Z.of_nat (length (filter
      (fun i => isActive (verification_at s i)
                && isVerified (verification_at s i)
                && (block_timestamp e <=? expiryTime (verification_at s i)) = true)
      (seqZ 0 (verificationCount s))))).

Definition getPendingRequestCount (e : env) : M Z :=
  read (fun s =>
    Z.of_nat (length (filter
      (fun i => isPending (request_at s i) = true)
      (seqZ 0 (requestCounter s))))).

(** ** Getters of the public state variables

    Each [public] state variable has a getter generated by the compiler.
    A mapping to a struct returns the struct's members; a mapping to an
    array takes the index as a second argument and reverts without data
    when the index is out of bounds.  None of them reads [msg.sender]. *)
Module Getter.
Definition verificationAuthority (e : env) : M address :=
  read verificationAuthority.

Definition verificationCount (e : env) : M Z := read verificationCount.

Definition requestCounter (e : env) : M Z := read requestCounter.

Definition MIN_VERIFICATION_THRESHOLD (e : env) : M Z :=
mret MIN_VERIFICATION_THRESHOLD.

Definition VERIFICATION_VALIDITY_PERIOD (e : env) : M Z :=
mret VERIFICATION_VALIDITY_PERIOD.

Definition verifications (e : env) (id : Z) : M IncomeVerification :=
  read (fun s => verification_at s id).

Definition verificationRequests (e : env) (id : Z) : M VerificationRequest :=
  read (fun s => request_at s id).

Definition userVerifications (e : env) (u : address) (i : Z) : M Z :=
  ids ← read (fun s => user_verifications_at s u);
  if (0 <=? i) && (i <? Z.of_nat (length ids))
  then mret (nth (Z.to_nat i) ids 0)
  else revert_empty.

Definition userRequests (e : env) (u : address) (i : Z) : M Z :=
  ids ← read (fun s => user_requests_at s u);
  if (0 <=? i) && (i <? Z.of_nat (length ids))
  then mret (nth (Z.to_nat i) ids 0)
  else revert_empty.
End Getter.

(** ** The external interface *)

Inductive call : Type :=
| RequestIncomeVerification (_incomeLevel _employmentMonths : Z)
                            (_documentHash : string)
| ProcessVerificationRequest (_requestId : Z) (_employerHash : string)
                             (_isApproved : bool)
| VerifyIncomeThreshold (_verificationId _requiredLevel : Z)
| CompareIncomes (_verificationId1 _verificationId2 : Z)
| GetVerificationInfo (_verificationId : Z)
| GetUserVerifications (_user : address)
| GetUserRequests (_user : address)
| GetRequestInfo (_requestId : Z)
| DeactivateVerification (_verificationId : Z)
| UpdateVerificationAuthority (_newAuthority : address)
| IsVerificationValid (_verificationId : Z)
| GetActiveVerificationCount
| GetPendingRequestCount
| ReadVerificationAuthority
| ReadVerificationCount
| ReadRequestCounter
| ReadMinVerificationThreshold
| ReadVerificationValidityPeriod
| ReadVerifications (id : Z)
| ReadVerificationRequests (id : Z)
| ReadUserVerifications (u : address) (i : Z)
| ReadUserRequests (u : address) (i : Z).

(** The values a call hands back, following each function's [returns]
    clause; a function without one returns nothing. *)
Inductive returndata : Type :=
| RNone
| RBool (b : bool)
| RUint (n : Z)
| RUints (l : list Z)
| RAddress (a : address)
| RVerificationInfo (i : VerificationInfo)
| RRequestInfo (i : RequestInfo)
| RVerification (v : IncomeVerification)
| RRequest (r : VerificationRequest).

Definition body (c : call) (e : env) : M returndata :=
  match c with
  | RequestIncomeVerification l m d =>
      requestIncomeVerification e l m d;; mret RNone
  | ProcessVerificationRequest id h a =>
      processVerificationRequest e id h a;; mret RNone
  | VerifyIncomeThreshold id l => RBool <$> verifyIncomeThreshold e id l
  | CompareIncomes id1 id2 => RBool <$> compareIncomes e id1 id2
  | GetVerificationInfo id => RVerificationInfo <$> getVerificationInfo e id
  | GetUserVerifications u => RUints <$> getUserVerifications e u
  | GetUserRequests u => RUints <$> getUserRequests e u
  | GetRequestInfo id => RRequestInfo <$> getRequestInfo e id
  | DeactivateVerification id => deactivateVerification e id;; mret RNone
  | UpdateVerificationAuthority a =>
      updateVerificationAuthority e a;; mret RNone
  | IsVerificationValid id => RBool <$> isVerificationValid e id
  | GetActiveVerificationCount => RUint <$> getActiveVerificationCount e
  | GetPendingRequestCount => RUint <$> getPendingRequestCount e
  | ReadVerificationAuthority => RAddress <$> Getter.verificationAuthority e
  | ReadVerificationCount => RUint <$> Getter.verificationCount e
  | ReadRequestCounter => RUint <$> Getter.requestCounter e
  | ReadMinVerificationThreshold => RUint <$> Getter.MIN_VERIFICATION_THRESHOLD e
  | ReadVerificationValidityPeriod =>
      RUint <$> Getter.VERIFICATION_VALIDITY_PERIOD e
  | ReadVerifications id => RVerification <$> Getter.verifications e id
  | ReadVerificationRequests id => RRequest <$> Getter.verificationRequests e id
  | ReadUserVerifications u i => RUint <$> Getter.userVerifications e u i
  | ReadUserRequests u i => RUint <$> Getter.userRequests e u i
  end.

(** One transaction or query against the deployed contract. *)
Definition execute (c : call) (e : env) (s : state) : outcome returndata * state :=
  external_call (body c e) s.

(** [step s s'] : some call takes the contract from [s] to [s']. *)
Definition step (s s' : state) : Prop :=
  exists c e, snd (execute c e s) = s'.

(** Later states of the contract. *)
Definition later : relation state := rtc step.

(** ** A sample history

    The authority is account 1 and deploys at time 1000; account 2 submits
    a request with income level 5; the authority approves it at time 3000;
    account 2 deactivates the record at time 5000.  Account 3 is a
    stranger. *)
Definition deployed : state := constructor (mkEnv 1 1000).

Definition submitted : state :=
  snd (execute (RequestIncomeVerification 5 48 "QmDoc") (mkEnv 2 2000) deployed).

Definition approved : state :=
  snd (execute (ProcessVerificationRequest 0 "employerHashX" true)
         (mkEnv 1 3000) submitted).

Definition deactivated : state :=
  snd (execute (DeactivateVerification 0) (mkEnv 2 5000) approved).

Definition rejected : state :=
  snd (execute (ProcessVerificationRequest 0 "employerHashX" false)
         (mkEnv 1 3000) submitted).

Definition resubmitted : state :=
  snd (execute (RequestIncomeVerification 7 12 "QmDoc2") (mkEnv 2 6000)
         deactivated).

Definition reapproved : state :=
  snd (execute (ProcessVerificationRequest 1 "employerHashY" true)
         (mkEnv 1 7000) resubmitted).

(** A registry whose request counter has reached the last [uint256]. *)
Definition exhausted : state := with_requestCounter uint256_max deployed.

(** ** Predicates used in the statements *)

(** The request [id] exists and has been approved or rejected. *)
Definition processed (id : Z) (s : state) : Prop :=
  id < requestCounter s /\ isPending (request_at s id) = false.

(** The record [id] exists and has been deactivated. *)
Definition retired (id : Z) (s : state) : Prop :=
  id < verificationCount s /\ isActive (verification_at s id) = false.

(** The three conditions of the modifier [validVerification]. *)
Definition validVerification_holds (e : env) (id : Z) (s : state) : Prop :=
  id < verificationCount s /\
  isActive (verification_at s id) = true /\
  block_timestamp e <= expiryTime (verification_at s id).

(** The members of a record that [getVerificationInfo] returns. *)
Definition info_of (v : IncomeVerification) : VerificationInfo :=
  mkVerificationInfo (isVerified v) (isActive v) (verificationTime v)
    (expiryTime v) (employerHash v) (verifiedUser v).

(** The members of a request that [getRequestInfo] returns. *)
Definition request_info_of (r : VerificationRequest) : RequestInfo :=
  mkRequestInfo (requester r) (isPending r) (requestTime r) (documentHash r).

(** Reading element [i] of a storage array through its getter. *)
Definition element_or_revert (ids : list Z) (i : Z) : outcome returndata :=
  if (0 <=? i) && (i <? Z.of_nat (length ids))
  then Done (RUint (nth (Z.to_nat i) ids 0))
  else Revert NoData.

(** The comparison a threshold check stands for, taken on the value behind
    the handle: does the income level exceed [requiredLevel]?  The null
    handle counts as zero. *)
Definition income_exceeds (v : IncomeVerification) (requiredLevel : Z) : bool :=
  match encryptedIncomeLevel v with
  | euint8_of x => requiredLevel <? x
  | euint8_null => requiredLevel <? 0
  end.

(** ** The effect of each state-changing function *)

(** The state a successful [requestIncomeVerification] leaves. *)
Definition after_request (e : env) (lvl months : Z) (doc : string) (s : state)
    : state :=
  mkState (verificationAuthority s) (verificationCount s) (verifications s)
    (userVerifications s)
    (<[requestCounter s :=
         mkVerificationRequest (msg_sender e) (euint8_of lvl) (euint8_of months)
           true (block_timestamp e) doc]> (verificationRequests s))
    (<[msg_sender e := user_requests_at s (msg_sender e) ++ [requestCounter s]]>
       (userRequests s))
    (requestCounter s + 1)
    ((((acl s ++ [(euint8_of lvl, This)]) ++ [(euint8_of months, This)])
        ++ [(euint8_of lvl, Account (msg_sender e))])
       ++ [(euint8_of months, Account (msg_sender e))])
    (events s ++ [VerificationRequested (requestCounter s) (msg_sender e)
                    (block_timestamp e)]).

(** The state a successful rejection leaves. *)
Definition after_reject (id : Z) (s : state) : state :=
  with_verificationRequests
    (<[id := set_isPending false (request_at s id)]> (verificationRequests s)) s.

(** The record an approval of request [id] creates. *)
Definition approved_record_of (e : env) (id : Z) (h : string) (s : state)
    : IncomeVerification :=
  mkIncomeVerification (claimedIncomeLevel (request_at s id))
    (employmentDuration (request_at s id)) true true (block_timestamp e)
    (block_timestamp e + VERIFICATION_VALIDITY_PERIOD) h
    (requester (request_at s id)).

(** The state a successful approval leaves. *)
Definition after_approve (e : env) (id : Z) (h : string) (s : state) : state :=
  mkState (verificationAuthority s) (verificationCount s + 1)
    (<[verificationCount s := approved_record_of e id h s]> (verifications s))
    (<[requester (request_at s id) :=
         user_verifications_at s (requester (request_at s id))
         ++ [verificationCount s]]> (userVerifications s))
    (<[id := set_isPending false (request_at s id)]> (verificationRequests s))
    (userRequests s) (requestCounter s) (acl s)
    ((events s
        ++ [ThresholdVerification (verificationCount s)
              (requester (request_at s id)) true])
       ++ [IncomeVerified (verificationCount s) (requester (request_at s id))
             (block_timestamp e) true]).

(** The state a successful [deactivateVerification] leaves. *)
Definition after_deactivate (id : Z) (s : state) : state :=
  mkState (verificationAuthority s) (verificationCount s)
    (<[id := set_isActive false (verification_at s id)]> (verifications s))
    (userVerifications s) (verificationRequests s) (userRequests s)
    (requestCounter s) (acl s)
    (events s ++ [VerificationExpired id (verifiedUser (verification_at s id))]).

(** [changes e s c s'] : the call [c] succeeds in [s] and writes; it leaves
    [s'].  One constructor per path through a function that writes. *)
Inductive changes (e : env) (s : state) : call -> state -> Prop :=
| changes_request (lvl months : Z) (doc : string) :
    0 < lvl -> 0 < months -> doc <> "" ->
    requestCounter s + 1 <= uint256_max ->
    changes e s (RequestIncomeVerification lvl months doc)
      (after_request e lvl months doc s)
| changes_reject (id : Z) (h : string) :
    msg_sender e = verificationAuthority s ->
    id < requestCounter s -> isPending (request_at s id) = true -> h <> "" ->
    changes e s (ProcessVerificationRequest id h false) (after_reject id s)
| changes_approve (id : Z) (h : string) :
    msg_sender e = verificationAuthority s ->
    id < requestCounter s -> isPending (request_at s id) = true -> h <> "" ->
    block_timestamp e + VERIFICATION_VALIDITY_PERIOD <= uint256_max ->
    verificationCount s + 1 <= uint256_max ->
    changes e s (ProcessVerificationRequest id h true) (after_approve e id h s)
| changes_deactivate (id : Z) :
    validVerification_holds e id s ->
    verifiedUser (verification_at s id) = msg_sender e \/
    msg_sender e = verificationAuthority s ->
    changes e s (DeactivateVerification id) (after_deactivate id s)
| changes_authority (a : address) :
    msg_sender e = verificationAuthority s -> a <> 0 ->
    changes e s (UpdateVerificationAuthority a) (with_authority a s).

(** States of a registry deployed by [constructor]. *)
Definition reachable (s : state) : Prop :=
  exists e0, later (constructor e0) s.

(** The IDs the two counting loops visit. *)
Definition pending_ids (s : state) : list Z :=
  filter (fun i => isPending (request_at s i) = true) (seqZ 0 (requestCounter s)).

Definition active_ids (e : env) (s : state) : list Z :=
  filter (fun i => isActive (verification_at s i)
                   && isVerified (verification_at s i)
                   && (block_timestamp e <=? expiryTime (verification_at s i)) = true)
    (seqZ 0 (verificationCount s)).

(** The request with its pending flag cleared: what never changes. *)
Definition request_identity (s : state) (id : Z) : VerificationRequest :=
  set_isPending false (request_at s id).

(** The record with its active flag cleared: what never changes. *)
Definition record_identity (s : state) (id : Z) : IncomeVerification :=
  set_isActive false (verification_at s id).

Definition requests_kept (s s' : state) : Prop :=
  requestCounter s <= requestCounter s' /\
  forall id, id < requestCounter s ->
    request_identity s' id = request_identity s id /\
    (isPending (request_at s' id) = true -> isPending (request_at s id) = true).

Definition records_kept (s s' : state) : Prop :=
  verificationCount s <= verificationCount s' /\
  forall id, id < verificationCount s ->
    record_identity s' id = record_identity s id.

(** The calls whose functions are not declared [view]. *)
Definition writes (c : call) : Prop :=
  match c with
  | RequestIncomeVerification _ _ _ | ProcessVerificationRequest _ _ _
  | DeactivateVerification _ | UpdateVerificationAuthority _ => True
  | _ => False
  end.

(** ** Well-formed states *)

(** The counters are non-negative and delimit what the two struct
    mappings hold. *)
Definition allocated (s : state) : Prop :=
  0 <= requestCounter s /\ 0 <= verificationCount s /\
  (forall id, is_Some (verificationRequests s !! id) <->
              0 <= id < requestCounter s) /\
  (forall id, is_Some (verifications s !! id) <->
              0 <= id < verificationCount s).

(** The record [v] was made from the processed request [rid]. *)
Definition stems_from (s : state) (v : IncomeVerification) (rid : Z) : Prop :=
  0 <= rid < requestCounter s /\
  isPending (request_at s rid) = false /\
  requester (request_at s rid) = verifiedUser v /\
  claimedIncomeLevel (request_at s rid) = encryptedIncomeLevel v /\
  employmentDuration (request_at s rid) = encryptedEmploymentMonths v.

Definition records_sound (s : state) : Prop :=
  forall id v, verifications s !! id = Some v ->
    isVerified v = true /\
    expiryTime v = verificationTime v + 31536000 /\
    employerHash v <> "" /\
    exists rid, stems_from s v rid.

(** A per-user list holds exactly the IDs below [n] whose entry has that
    owner. *)
Definition index_sound {V : Type} (owner : V -> address) (zero : V)
    (m : gmap Z V) (idx : gmap Z (list Z)) (n : Z) : Prop :=
  forall u id, id ∈ default [] (idx !! u) <->
    0 <= id < n /\ owner (default zero (m !! id)) = u.

(** The per-user lists hold exactly the user's IDs. *)
Definition indexes_sound (s : state) : Prop :=
  (forall u id, id ∈ user_requests_at s u <->
     0 <= id < requestCounter s /\ requester (request_at s id) = u) /\
  (forall u id, id ∈ user_verifications_at s u <->
     0 <= id < verificationCount s /\ verifiedUser (verification_at s id) = u).

(** Each approval used up one request. *)
Definition requests_cover_records (s : state) : Prop :=
  verificationCount s + Z.of_nat (length (pending_ids s)) <= requestCounter s.

Definition well_formed (s : state) : Prop :=
  allocated s /\ records_sound s /\ indexes_sound s /\ requests_cover_records s.

(** By how much a successful call moves the number of pending requests. *)
Definition pending_delta (c : call) : Z :=
  match c with
  | RequestIncomeVerification _ _ _ => 1
  | ProcessVerificationRequest _ _ _ => -1
  | _ => 0
  end.

(** By how much it moves the number of valid records, seen at the time of
    the call. *)
Definition active_delta (c : call) : Z :=
  match c with
  | ProcessVerificationRequest _ _ true => 1
  | DeactivateVerification _ => -1
  | _ => 0
  end.

(** Every grant for an account goes to the requester of a request that
    holds the handle. *)
Definition acl_sound (s : state) : Prop :=
  forall h g, (h, g) ∈ acl s ->
    g = This \/
    exists rid, rid < requestCounter s /\
      g = Account (requester (request_at s rid)) /\
      (h = claimedIncomeLevel (request_at s rid) \/
       h = employmentDuration (request_at s rid)).

(** The events a successful call appends to the log. *)
Definition emitted (c : call) (e : env) (s : state) : list event :=
  match c with
  | RequestIncomeVerification _ _ _ =>
      [VerificationRequested (requestCounter s) (msg_sender e) (block_timestamp e)]
  | ProcessVerificationRequest id _ true =>
      [ThresholdVerification (verificationCount s) (requester (request_at s id)) true;
       IncomeVerified (verificationCount s) (requester (request_at s id))
         (block_timestamp e) true]
  | DeactivateVerification id =>
      [VerificationExpired id (verifiedUser (verification_at s id))]
  | _ => []
  end.

(** The sample history continued: the authority hands over to account 9. *)
Definition handed_over : state :=
  snd (execute (UpdateVerificationAuthority 9) (mkEnv 1 8000) reapproved).

(** Each per-user list is in ascending order. *)
Definition lists_ascending (s : state) : Prop :=
  forall u, StronglySorted Z.lt (user_requests_at s u) /\
            StronglySorted Z.lt (user_verifications_at s u).

(** ** Proof automation *)

Ltac unfold_monad :=
  unfold external_call, checked_add, emit, FHEAcl.allow, FHEAcl.allowThis,
    require, read, write, panic, revert_empty, mbind, M_bind, mret, M_ret,
    fmap, M_fmap in *.

Ltac unfold_contract :=
  unfold execute, body, requestIncomeVerification, processVerificationRequest,
    _checkIncomeThreshold, verifyIncomeThreshold, compareIncomes,
    getVerificationInfo, getUserVerifications, getUserRequests, getRequestInfo,
    deactivateVerification, updateVerificationAuthority, isVerificationValid,
    getActiveVerificationCount, getPendingRequestCount,
    Getter.verificationAuthority, Getter.verificationCount,
    Getter.requestCounter, Getter.MIN_VERIFICATION_THRESHOLD,
    Getter.VERIFICATION_VALIDITY_PERIOD, Getter.verifications,
    Getter.verificationRequests,
    Getter.userVerifications, Getter.userRequests,
    onlyAuthority, validVerification in *;
  unfold_monad.

(** Split on every branch the computation takes. *)
Ltac run := repeat (case_match; simplify_eq/=).

(** Read a mapping after a write to it. *)
Ltac read_after_write :=
  rewrite ?lookup_insert; repeat case_decide; simplify_eq/=.

(** Strip [execute] from a finished view call. *)
Ltac peel_execute H m :=
  unfold execute, body, external_call, fmap, M_fmap in H;
  destruct m as [[?|?] ?]; simpl in *; try congruence.

(** * Properties *)

(** ** The sample history *)

Example approved_record :
  verification_at approved 0 =
  mkIncomeVerification (euint8_of 5) (euint8_of 48) true true 3000
    (3000 + 31536000) "employerHashX" 2.
Proof. vm_compute. reflexivity. Qed.

Example deactivated_record :
  isActive (verification_at deactivated 0) = false.
Proof. vm_compute. reflexivity. Qed.

Example rejected_has_no_record :
  verificationCount rejected = 0 /\ verifications rejected = ∅.
Proof. vm_compute. split; reflexivity. Qed.

(** ** Modifiers and simple runs *)

Lemma validVerification_run (e : env) (id : Z) (s : state) :
  validVerification e id s =
  if id <? verificationCount s then
    if isActive (verification_at s id) then
      if block_timestamp e <=? expiryTime (verification_at s id)
      then (Done tt, s)
      else (Revert (Error "Verification expired"), s)
    else (Revert (Error "Verification not active"), s)
  else (Revert (Error "Invalid verification ID"), s).
Proof.
  unfold validVerification. unfold_monad. run; reflexivity.
Qed.

Lemma validVerification_pass (e : env) (id : Z) (s : state) :
  validVerification_holds e id s -> validVerification e id s = (Done tt, s).
Proof.
  intros (Hlt & Hact & Hexp). rewrite validVerification_run, Hact.
  assert ((id <? verificationCount s) = true) as -> by lia.
  assert ((block_timestamp e <=? expiryTime (verification_at s id)) = true)
    as -> by lia.
  reflexivity.
Qed.

Lemma validVerification_block (e : env) (id : Z) (s : state) :
  ~ validVerification_holds e id s ->
  exists msg, validVerification e id s = (Revert (Error msg), s) /\
              msg <> "Not authorized".
Proof.
  intros Hno. rewrite validVerification_run.
  destruct (Z.ltb_spec id (verificationCount s)) as [Hlt|Hge];
    [| by eexists].
  destruct (isActive (verification_at s id)) eqn:Hact; [| by eexists].
  destruct (Z.leb_spec (block_timestamp e) (expiryTime (verification_at s id)))
    as [Hle|Hgt]; [| by eexists].
  destruct Hno. by repeat split.
Qed.

Lemma validVerification_holds_dec (e : env) (id : Z) (s : state) :
  validVerification_holds e id s \/ ~ validVerification_holds e id s.
Proof.
  unfold validVerification_holds.
  destruct (Z.ltb_spec id (verificationCount s));
    destruct (isActive (verification_at s id));
    destruct (Z.leb_spec (block_timestamp e) (expiryTime (verification_at s id)));
    (left; repeat split; (done || lia)) || (right; intros (? & ? & ?); (done || lia)).
Qed.

Lemma isVerificationValid_run (e : env) (id : Z) (s : state) :
  isVerificationValid e id s =
  (Done (if verificationCount s <=? id then false
         else isActive (verification_at s id)
              && isVerified (verification_at s id)
              && (block_timestamp e <=? expiryTime (verification_at s id))), s).
Proof.
  unfold isVerificationValid. unfold_monad. case_match; reflexivity.
Qed.

Lemma nonempty_length (d : string) :
  d <> "" -> (0 <? Z.of_nat (String.length d)) = true.
Proof.
  destruct d as [|c d]; [done |]. intros _.
  apply Z.ltb_lt. cbn [String.length]. lia.
Qed.

Lemma external_call_revert {A} (m : M A) (s : state) (f : failure) :
  fst (external_call m s) = Revert f -> snd (external_call m s) = s.
Proof.
  unfold external_call. destruct (m s) as [[a|g] s']; simpl; [discriminate | done].
Qed.

(** ** Validity of a record *)

(** C6: [isVerificationValid] leaves the state alone and answers from the
    stored record and the block time only.  Its answer is true exactly when
    the ID is allocated, the record is active and verified, and the time is
    not past the expiry; so it is false for an inactive record whatever the
    time, false past the expiry whatever [isActive], and false for an ID
    that was never allocated. *)
Theorem isVerificationValid_predicate (e : env) (id : Z) (s : state) :
  exists b : bool,
    isVerificationValid e id s = (Done b, s) /\
    (b = true <->
       id < verificationCount s /\
       isActive (verification_at s id) = true /\
       isVerified (verification_at s id) = true /\
       block_timestamp e <= expiryTime (verification_at s id)) /\
    (isActive (verification_at s id) = false -> b = false) /\
    (expiryTime (verification_at s id) < block_timestamp e -> b = false) /\
    (verificationCount s <= id -> b = false) /\
    (forall e', block_timestamp e' = block_timestamp e ->
                isVerificationValid e' id s = (Done b, s)).
Proof.
  set (b := if verificationCount s <=? id then false
            else isActive (verification_at s id)
                 && isVerified (verification_at s id)
                 && (block_timestamp e <=? expiryTime (verification_at s id))).
  exists b. split; [apply isVerificationValid_run |].
  assert (Hb : b = true <->
               id < verificationCount s /\
               isActive (verification_at s id) = true /\
               isVerified (verification_at s id) = true /\
               block_timestamp e <= expiryTime (verification_at s id)).
  { subst b. destruct (Z.leb_spec (verificationCount s) id) as [Hge|Hlt].
    - split; [done | intros (? & _); lia].
    - rewrite !andb_true_iff, Z.leb_le. tauto. }
  split; [exact Hb |].
  split; [| split; [| split]].
  - intros Hoff. destruct b; [| done].
    destruct Hb as [Hb _]. destruct (Hb eq_refl) as (_ & Hon & _). congruence.
  - intros Hexp. destruct b; [| done].
    destruct Hb as [Hb _]. destruct (Hb eq_refl) as (_ & _ & _ & Hle). lia.
  - intros Hge. destruct b; [| done].
    destruct Hb as [Hb _]. destruct (Hb eq_refl) as (Hlt & _). lia.
  - intros e' Ht. rewrite isVerificationValid_run, Ht. done.
Qed.

(** C6 on the sample history: the deactivated record 0 is invalid at a time
    well before its expiry. *)
Lemma isVerificationValid_predicate_witness :
  isActive (verification_at deactivated 0) = false /\
  fst (isVerificationValid (mkEnv 3 6000) 0 deactivated) = Done false.
Proof.
  assert (Hoff : isActive (verification_at deactivated 0) = false)
    by (vm_compute; reflexivity).
  split; [exact Hoff |].
  destruct (isVerificationValid_predicate (mkEnv 3 6000) 0 deactivated)
    as (b & Hrun & _ & Hinactive & _).
  rewrite Hrun. simpl. f_equal. exact (Hinactive Hoff).
Defined.

(** ** The threshold check *)

Lemma verifyIncomeThreshold_constant (e : env) (id lvl : Z) (s : state) (b : bool) :
  fst (verifyIncomeThreshold e id lvl s) = Done b -> b = true.
Proof.
  unfold verifyIncomeThreshold. unfold_monad. rewrite validVerification_run.
  intros H. run; simpl in *; simplify_eq; done.
Qed.

(** C1, evaluated where the code and the claim part: record 0 of the sample
    history is valid at time 4000 and holds income level 5; its owner asks
    whether the level exceeds 10.  The level does not, yet the call
    answers true. *)
Theorem verifyIncomeThreshold_above_stored_level :
  encryptedIncomeLevel (verification_at approved 0) = FHE.asEuint8 5 /\
  fst (isVerificationValid (mkEnv 2 4000) 0 approved) = Done true /\
  msg_sender (mkEnv 2 4000) = verifiedUser (verification_at approved 0) /\
  income_exceeds (verification_at approved 0) 10 = false /\
  execute (VerifyIncomeThreshold 0 10) (mkEnv 2 4000) approved =
    (Done (RBool true), approved).
Proof. vm_compute. repeat split. Qed.

(** ** Callers without a role *)

Lemma stranger_gated (c : call) (e : env) (id lvl : Z) (s : state) :
  msg_sender e <> verificationAuthority s ->
  msg_sender e <> verifiedUser (verification_at s id) ->
  c = GetVerificationInfo id \/ c = VerifyIncomeThreshold id lvl \/
  c = DeactivateVerification id ->
  exists msg,
    execute c e s = (Revert (Error msg), s) /\
    (verificationCount s <= id -> msg = "Invalid verification ID") /\
    (id < verificationCount s -> isActive (verification_at s id) = false ->
     msg = "Verification not active") /\
    (id < verificationCount s -> isActive (verification_at s id) = true ->
     expiryTime (verification_at s id) < block_timestamp e ->
     msg = "Verification expired") /\
    (validVerification_holds e id s -> msg = "Not authorized").
Proof.
  intros Hauth Hown Hc.
  assert (Hguard : bool_decide (verifiedUser (verification_at s id) = msg_sender e)
                   || bool_decide (msg_sender e = verificationAuthority s) = false).
  { rewrite !bool_decide_eq_false_2; [done | done | congruence]. }
  assert (Hrun : exists msg,
            execute c e s = (Revert (Error msg), s) /\
            msg = if id <? verificationCount s then
                    if isActive (verification_at s id) then
                      if block_timestamp e <=? expiryTime (verification_at s id)
                      then "Not authorized" else "Verification expired"
                    else "Verification not active"
                  else "Invalid verification ID").
  { destruct Hc as [-> | [-> | ->]];
      unfold execute, body, getVerificationInfo, verifyIncomeThreshold,
        deactivateVerification;
      unfold external_call, fmap, M_fmap, mbind, M_bind;
      rewrite validVerification_run;
      destruct (id <? verificationCount s); [| by eexists | | by eexists
                                              | | by eexists];
      (destruct (isActive (verification_at s id)); [| by eexists]);
      (destruct (block_timestamp e <=? expiryTime (verification_at s id));
         [| by eexists]);
      unfold read, require; rewrite Hguard; by eexists. }
  destruct Hrun as (msg & Hexec & ->). eexists. split; [exact Hexec |].
  unfold validVerification_holds.
  destruct (Z.ltb_spec id (verificationCount s)) as [Hlt|Hge];
    [| repeat split; intros; (done || lia)].
  destruct (isActive (verification_at s id)) eqn:Hact;
    [| repeat split; intros; try done; try lia;
       match goal with H : _ /\ _ /\ _ |- _ => by destruct H as (_ & ? & _) end].
  destruct (Z.leb_spec (block_timestamp e) (expiryTime (verification_at s id)))
    as [Hle|Hgt];
    repeat split; intros; try done; try lia;
    match goal with H : _ /\ _ /\ _ |- _ => destruct H as (_ & _ & ?); lia end.
Qed.

(** C2, as amended: a caller that is neither the record's owner nor the
    authority never gets through [getVerificationInfo],
    [verifyIncomeThreshold] or [deactivateVerification]: the call reverts
    with a message and the state is unchanged.  The modifier
    [validVerification] runs first, so the message is "Invalid
    verification ID" for an ID that is not allocated, "Verification not
    active" for an allocated but inactive record, "Verification expired"
    for an active record past its expiry, and "Not authorized" when the
    record passes the modifier.  A caller that is neither the listed user
    nor the authority gets "Not authorized" from [getUserVerifications] and
    [getUserRequests] in every state. *)
Theorem stranger_is_turned_away (e : env) (id lvl : Z) (u : address) (s : state) :
  msg_sender e <> verificationAuthority s ->
  (msg_sender e <> verifiedUser (verification_at s id) ->
   forall c,
     c = GetVerificationInfo id \/ c = VerifyIncomeThreshold id lvl \/
     c = DeactivateVerification id ->
     exists msg,
       execute c e s = (Revert (Error msg), s) /\
       (verificationCount s <= id -> msg = "Invalid verification ID") /\
       (id < verificationCount s -> isActive (verification_at s id) = false ->
        msg = "Verification not active") /\
       (id < verificationCount s -> isActive (verification_at s id) = true ->
        expiryTime (verification_at s id) < block_timestamp e ->
        msg = "Verification expired") /\
       (validVerification_holds e id s -> msg = "Not authorized")) /\
  (msg_sender e <> u ->
   execute (GetUserVerifications u) e s = (Revert (Error "Not authorized"), s) /\
   execute (GetUserRequests u) e s = (Revert (Error "Not authorized"), s)).
Proof.
  intros Hauth. split.
  - intros Hown c Hc. by apply (stranger_gated c e id lvl s).
  - intros Hu. unfold_contract; simpl.
    rewrite !bool_decide_eq_false_2 by congruence. done.
Qed.

(** C2 as amended, on the sample history: account 3 asks about record 0 of
    account 2 while it is valid and after it was deactivated, and for
    account 2's request list. *)
Lemma stranger_is_turned_away_witness :
  msg_sender (mkEnv 3 4000) <> verificationAuthority approved /\
  msg_sender (mkEnv 3 4000) <> verifiedUser (verification_at approved 0) /\
  msg_sender (mkEnv 3 4000) <> 2 /\
  validVerification_holds (mkEnv 3 4000) 0 approved /\
  isActive (verification_at deactivated 0) = false /\
  execute (GetVerificationInfo 0) (mkEnv 3 4000) approved =
    (Revert (Error "Not authorized"), approved) /\
  execute (GetVerificationInfo 0) (mkEnv 3 6000) deactivated =
    (Revert (Error "Verification not active"), deactivated) /\
  execute (GetUserRequests 2) (mkEnv 3 4000) approved =
    (Revert (Error "Not authorized"), approved).
Proof.
  assert (H1 : msg_sender (mkEnv 3 4000) <> verificationAuthority approved)
    by (vm_compute; discriminate).
  assert (H2 : msg_sender (mkEnv 3 4000) <> verifiedUser (verification_at approved 0))
    by (vm_compute; discriminate).
  assert (H3 : msg_sender (mkEnv 3 4000) <> 2) by (vm_compute; discriminate).
  assert (H4 : validVerification_holds (mkEnv 3 4000) 0 approved).
  { repeat split; vm_compute; (reflexivity || discriminate). }
  assert (H5 : isActive (verification_at deactivated 0) = false)
    by (vm_compute; reflexivity).
  assert (H6 : msg_sender (mkEnv 3 6000) <> verificationAuthority deactivated)
    by (vm_compute; discriminate).
  assert (H7 : msg_sender (mkEnv 3 6000)
               <> verifiedUser (verification_at deactivated 0))
    by (vm_compute; discriminate).
  assert (H8 : 0 < verificationCount deactivated) by (vm_compute; reflexivity).
  destruct (stranger_is_turned_away (mkEnv 3 4000) 0 10 2 approved H1)
    as [Hrecord Hlists].
  destruct (Hrecord H2 (GetVerificationInfo 0) (or_introl eq_refl))
    as (msg & Hrun & _ & _ & _ & Hmsg).
  destruct (stranger_is_turned_away (mkEnv 3 6000) 0 10 2 deactivated H6)
    as [Hrecord' _].
  destruct (Hrecord' H7 (GetVerificationInfo 0) (or_introl eq_refl))
    as (msg' & Hrun' & _ & Hmsg' & _).
  split; [exact H1 |]. split; [exact H2 |]. split; [exact H3 |].
  split; [exact H4 |]. split; [exact H5 |]. split; [| split].
  - rewrite Hrun. by rewrite (Hmsg H4).
  - rewrite Hrun'. by rewrite (Hmsg' H8 H5).
  - exact (proj2 (Hlists H3)).
Defined.

(** C2 as first stated fails: account 3 is neither the owner (2) nor the
    authority (1) of the deactivated record 0, and [getVerificationInfo]
    turns it away with "Verification not active", not "Not authorized". *)
Lemma stranger_on_inactive_record :
  msg_sender (mkEnv 3 6000) <> verificationAuthority deactivated /\
  msg_sender (mkEnv 3 6000) <> verifiedUser (verification_at deactivated 0) /\
  fst (execute (GetVerificationInfo 0) (mkEnv 3 6000) deactivated) =
    Revert (Error "Verification not active") /\
  fst (execute (GetVerificationInfo 0) (mkEnv 3 6000) deactivated) <>
    Revert (Error "Not authorized").
Proof. vm_compute. repeat split; discriminate. Qed.

(** ** The getters of the public mappings *)

Lemma getVerificationInfo_done (e : env) (id : Z) (s : state)
    (info : VerificationInfo) :
  fst (getVerificationInfo e id s) = Done info ->
  info = info_of (verification_at s id).
Proof.
  unfold getVerificationInfo. unfold_monad. rewrite validVerification_run.
  intros H. run; simpl in *; simplify_eq; done.
Qed.

Lemma getUserVerifications_done (e : env) (u : address) (s : state) (l : list Z) :
  fst (getUserVerifications e u s) = Done l -> l = user_verifications_at s u.
Proof.
  unfold getUserVerifications. unfold_monad.
  intros H. run; simpl in *; simplify_eq; done.
Qed.

Lemma getUserRequests_done (e : env) (u : address) (s : state) (l : list Z) :
  fst (getUserRequests e u s) = Done l -> l = user_requests_at s u.
Proof.
  unfold getUserRequests. unfold_monad.
  intros H. run; simpl in *; simplify_eq; done.
Qed.

Lemma getRequestInfo_done (e : env) (id : Z) (s : state) (info : RequestInfo) :
  fst (getRequestInfo e id s) = Done info ->
  info = request_info_of (request_at s id).
Proof.
  unfold getRequestInfo. unfold_monad.
  intros H. run; simpl in *; simplify_eq; done.
Qed.

Lemma element_or_revert_lookup (ids : list Z) (i : nat) (x : Z) :
  ids !! i = Some x -> element_or_revert ids (Z.of_nat i) = Done (RUint x).
Proof.
  intros Hx. unfold element_or_revert.
  pose proof (lookup_lt_Some _ _ _ Hx) as Hlt.
  assert ((0 <=? Z.of_nat i) && (Z.of_nat i <? Z.of_nat (length ids)) = true)
    as -> by (apply andb_true_intro; split; lia).
  rewrite Nat2Z.id. by rewrite (nth_lookup_Some _ _ 0 _ Hx).
Qed.

Lemma element_or_revert_past (ids : list Z) (i : Z) :
  Z.of_nat (length ids) <= i -> element_or_revert ids i = Revert NoData.
Proof.
  intros Hi. unfold element_or_revert.
  by assert ((i <? Z.of_nat (length ids)) = false) as -> by lia;
    rewrite andb_false_r.
Qed.

(** C3: whoever calls and whenever, the getters of [verifications] and
    [verificationRequests] return the stored struct (employer hash, owner,
    requester, request time and document hash included) and never revert,
    and the getters of [userVerifications] and [userRequests] return the
    stored ID at an index inside the list and revert without data outside;
    a second caller [e'] gets the same answer as [e].  Hence the checks of
    the named queries are bypassed: whatever [getVerificationInfo] or
    [getRequestInfo] hand to an entitled caller [o] is part of what any
    caller [e] reads through the struct getters, and the list that
    [getUserVerifications] or [getUserRequests] hand to [o] is read by [e]
    element by element, its end being the first index that reverts. *)
Theorem public_mappings_readable_by_anyone
    (e e' : env) (id : Z) (u : address) (i : Z) (s : state) :
  execute (ReadVerifications id) e s = (Done (RVerification (verification_at s id)), s) /\
  execute (ReadVerificationRequests id) e s = (Done (RRequest (request_at s id)), s) /\
  execute (ReadUserVerifications u i) e s =
    (element_or_revert (user_verifications_at s u) i, s) /\
  execute (ReadUserRequests u i) e s =
    (element_or_revert (user_requests_at s u) i, s) /\
  (forall c,
     c = ReadVerifications id \/ c = ReadVerificationRequests id \/
     c = ReadUserVerifications u i \/ c = ReadUserRequests u i ->
     execute c e' s = execute c e s) /\
  (forall o info,
     fst (execute (GetVerificationInfo id) o s) = Done (RVerificationInfo info) ->
     exists v, execute (ReadVerifications id) e s = (Done (RVerification v), s) /\
               info = info_of v) /\
  (forall o info,
     fst (execute (GetRequestInfo id) o s) = Done (RRequestInfo info) ->
     exists r, execute (ReadVerificationRequests id) e s = (Done (RRequest r), s) /\
               info = request_info_of r) /\
  (forall o l,
     fst (execute (GetUserVerifications u) o s) = Done (RUints l) ->
     (forall n x, l !! n = Some x ->
        execute (ReadUserVerifications u (Z.of_nat n)) e s = (Done (RUint x), s)) /\
     execute (ReadUserVerifications u (Z.of_nat (length l))) e s =
       (Revert NoData, s)) /\
  (forall o l,
     fst (execute (GetUserRequests u) o s) = Done (RUints l) ->
     (forall n x, l !! n = Some x ->
        execute (ReadUserRequests u (Z.of_nat n)) e s = (Done (RUint x), s)) /\
     execute (ReadUserRequests u (Z.of_nat (length l))) e s = (Revert NoData, s)).
Proof.
  assert (Hv : forall a j, execute (ReadUserVerifications u j) a s =
                           (element_or_revert (user_verifications_at s u) j, s)).
  { intros a j. unfold element_or_revert. unfold_contract; simpl.
    by destruct ((0 <=? j) && (j <? _)). }
  assert (Hr : forall a j, execute (ReadUserRequests u j) a s =
                           (element_or_revert (user_requests_at s u) j, s)).
  { intros a j. unfold element_or_revert. unfold_contract; simpl.
    by destruct ((0 <=? j) && (j <? _)). }
  split; [reflexivity |]. split; [reflexivity |].
  split; [apply Hv |]. split; [apply Hr |].
  split; [| split; [| split; [| split]]].
  - intros c [-> | [-> | [-> | ->]]]; [reflexivity | reflexivity | |].
    + by rewrite !Hv.
    + by rewrite !Hr.
  - intros o info Hdone. exists (verification_at s id). split; [reflexivity |].
    apply (getVerificationInfo_done o id s).
    peel_execute Hdone (getVerificationInfo o id s).
  - intros o info Hdone. exists (request_at s id). split; [reflexivity |].
    apply (getRequestInfo_done o id s).
    peel_execute Hdone (getRequestInfo o id s).
  - intros o l Hdone.
    assert (Hl : l = user_verifications_at s u).
    { apply (getUserVerifications_done o u s l).
      peel_execute Hdone (getUserVerifications o u s). }
    subst l. split.
    + intros n x Hx. rewrite Hv. f_equal. by apply element_or_revert_lookup.
    + rewrite Hv. f_equal. apply element_or_revert_past. lia.
  - intros o l Hdone.
    assert (Hl : l = user_requests_at s u).
    { apply (getUserRequests_done o u s l).
      peel_execute Hdone (getUserRequests o u s). }
    subst l. split.
    + intros n x Hx. rewrite Hr. f_equal. by apply element_or_revert_lookup.
    + rewrite Hr. f_equal. apply element_or_revert_past. lia.
Qed.

(** C3 on the sample history: account 3, turned away by
    [getVerificationInfo] and [getUserVerifications], reads through the
    getters the record that the owner's query returns and the owner's ID
    list up to its end. *)
Lemma public_mappings_readable_by_anyone_witness :
  fst (execute (GetVerificationInfo 0) (mkEnv 3 4000) approved) =
    Revert (Error "Not authorized") /\
  fst (execute (GetUserVerifications 2) (mkEnv 3 4000) approved) =
    Revert (Error "Not authorized") /\
  fst (execute (GetVerificationInfo 0) (mkEnv 2 4000) approved) =
    Done (RVerificationInfo (info_of (verification_at approved 0))) /\
  fst (execute (GetUserVerifications 2) (mkEnv 2 4000) approved) =
    Done (RUints [0]) /\
  (exists v,
     execute (ReadVerifications 0) (mkEnv 3 4000) approved =
       (Done (RVerification v), approved) /\
     info_of (verification_at approved 0) = info_of v) /\
  execute (ReadUserVerifications 2 0) (mkEnv 3 4000) approved =
    (Done (RUint 0), approved) /\
  execute (ReadUserVerifications 2 1) (mkEnv 3 4000) approved =
    (Revert NoData, approved).
Proof.
  assert (H1 : fst (execute (GetVerificationInfo 0) (mkEnv 3 4000) approved) =
               Revert (Error "Not authorized")) by (vm_compute; reflexivity).
  assert (H2 : fst (execute (GetUserVerifications 2) (mkEnv 3 4000) approved) =
               Revert (Error "Not authorized")) by (vm_compute; reflexivity).
  assert (H3 : fst (execute (GetVerificationInfo 0) (mkEnv 2 4000) approved) =
               Done (RVerificationInfo (info_of (verification_at approved 0))))
    by (vm_compute; reflexivity).
  assert (H4 : fst (execute (GetUserVerifications 2) (mkEnv 2 4000) approved) =
               Done (RUints [0])) by (vm_compute; reflexivity).
  destruct (public_mappings_readable_by_anyone (mkEnv 3 4000) (mkEnv 2 4000)
              0 2 0 approved)
    as (_ & _ & _ & _ & _ & Hrec & _ & Hids & _).
  destruct (Hids (mkEnv 2 4000) [0] H4) as [Helem Hend].
  split; [exact H1 |]. split; [exact H2 |]. split; [exact H3 |].
  split; [exact H4 |]. split; [| split].
  - exact (Hrec (mkEnv 2 4000) _ H3).
  - exact (Helem 0%nat 0 eq_refl).
  - exact Hend.
Defined.

(** ** Submitting a request *)

(** C8, as amended: a submission with a positive income level, a positive
    employment duration and a non-empty document hash, made while the
    request counter is below the last [uint256], succeeds and returns no
    value.  The new ID is the old [requestCounter]: the request stored under
    it is pending and belongs to the caller, the ID is appended to the
    caller's request list, and it is the first argument of the
    [VerificationRequested] event logged last. *)
Theorem requestIncomeVerification_result (e : env) (lvl months : Z)
    (doc : string) (s : state) :
  0 < lvl -> 0 < months -> doc <> "" -> requestCounter s < uint256_max ->
  exists s',
    execute (RequestIncomeVerification lvl months doc) e s = (Done RNone, s') /\
    requestCounter s' = requestCounter s + 1 /\
    request_at s' (requestCounter s) =
      mkVerificationRequest (msg_sender e) (euint8_of lvl) (euint8_of months)
        true (block_timestamp e) doc /\
    user_requests_at s' (msg_sender e) =
      user_requests_at s (msg_sender e) ++ [requestCounter s] /\
    events s' =
      events s ++ [VerificationRequested (requestCounter s) (msg_sender e)
                     (block_timestamp e)].
Proof.
  intros Hl Hm Hd Hrc. unfold_contract; simpl.
  assert ((0 <? lvl) = true) as -> by lia.
  assert ((0 <? months) = true) as -> by lia.
  rewrite (nonempty_length doc Hd). simpl.
  assert ((requestCounter s + 1 <=? uint256_max) = true) as -> by lia. simpl.
  eexists. split; [reflexivity |]. simpl.
  unfold request_at, user_requests_at; simpl. rewrite !lookup_insert_eq.
  done.
Qed.

(** C8 as amended, on the scenario of the specification: income level 42,
    48 months and document hash "Qm" on the fresh registry. *)
Lemma requestIncomeVerification_result_witness :
  0 < 42 /\ 0 < 48 /\ "Qm" <> "" /\ requestCounter deployed < uint256_max /\
  exists s',
    execute (RequestIncomeVerification 42 48 "Qm") (mkEnv 2 2000) deployed =
      (Done RNone, s') /\
    requestCounter s' = requestCounter deployed + 1 /\
    request_at s' (requestCounter deployed) =
      mkVerificationRequest 2 (euint8_of 42) (euint8_of 48) true 2000 "Qm" /\
    user_requests_at s' 2 = user_requests_at deployed 2 ++ [requestCounter deployed] /\
    events s' =
      events deployed ++ [VerificationRequested (requestCounter deployed) 2 2000].
Proof.
  assert (H1 : 0 < 42) by lia.
  assert (H2 : 0 < 48) by lia.
  assert (H3 : "Qm" <> "") by discriminate.
  assert (H4 : requestCounter deployed < uint256_max) by (vm_compute; reflexivity).
  split; [exact H1 |]. split; [exact H2 |]. split; [exact H3 |].
  split; [exact H4 |].
  exact (requestIncomeVerification_result (mkEnv 2 2000) 42 48 "Qm" deployed
           H1 H2 H3 H4).
Defined.

(** C8 as first stated fails: the function has no [returns] clause, so the
    valid submission that allocates request 0 hands back nothing rather
    than the ID 0. *)
Lemma requestIncomeVerification_returns_nothing :
  requestCounter deployed = 0 /\
  fst (execute (RequestIncomeVerification 42 48 "Qm") (mkEnv 2 2000) deployed) =
    Done RNone /\
  fst (execute (RequestIncomeVerification 42 48 "Qm") (mkEnv 2 2000) deployed) <>
    Done (RUint 0).
Proof. vm_compute. repeat split; discriminate. Qed.

(** ** Processing a request *)

Section RequestLifecycle.
Variable id : Z.

Lemma processed_step (s s' : state) :
  step s s' -> processed id s -> processed id s'.
Proof.
  intros (c & e & <-) [Hlt Hp]. unfold processed.
  destruct c; unfold_contract; simpl; run; simpl; try (split; assumption).
  all: unfold request_at in *; simpl.
  all: read_after_write; try lia; try done.
  all: split; [lia | done].
Qed.

Lemma processed_later (s s' : state) :
  later s s' -> processed id s -> processed id s'.
Proof.
  induction 1 as [|s1 s2 s3 Hstep _ IH]; [done |].
  intros Hp. apply IH. by apply (processed_step s1).
Qed.

Lemma processVerificationRequest_success (e : env) (h : string)
    (a : bool) (s s1 : state) :
  execute (ProcessVerificationRequest id h a) e s = (Done RNone, s1) ->
  msg_sender e = verificationAuthority s /\
  id < requestCounter s /\
  isPending (request_at s id) = true /\
  h <> "" /\
  processed id s1.
Proof.
  unfold processed. unfold_contract; simpl. intros H; run; simpl.
  all: unfold request_at in *; simpl; rewrite ?lookup_insert_eq; simpl.
  all: repeat split; try done; try lia.
  all: try (eapply bool_decide_eq_true_1; eassumption).
  all: intros ->; done.
Qed.

Lemma processVerificationRequest_not_pending (e : env) (h : string)
    (a : bool) (s : state) :
  msg_sender e = verificationAuthority s ->
  processed id s ->
  execute (ProcessVerificationRequest id h a) e s =
  (Revert (Error "Request not pending"), s).
Proof.
  intros Hauth [Hlt Hp]. unfold_contract; simpl.
  rewrite bool_decide_eq_true_2 by done. simpl.
  assert ((id <? requestCounter s) = true) as -> by lia. simpl.
  rewrite Hp. reflexivity.
Qed.

Lemma processVerificationRequest_never_again (e : env) (h : string)
    (a : bool) (s : state) :
  processed id s ->
  exists f, execute (ProcessVerificationRequest id h a) e s = (Revert f, s).
Proof.
  intros Hp.
  destruct (decide (msg_sender e = verificationAuthority s)) as [Hauth|Hno].
  - eexists. by apply processVerificationRequest_not_pending.
  - eexists. unfold_contract; simpl.
    rewrite bool_decide_eq_false_2 by done. reflexivity.
Qed.
End RequestLifecycle.

(** C4: let a call of [processVerificationRequest] on [id] succeed, as an
    approval or as a rejection.  The request was pending before and is not
    pending after.  In every later state [s2], a further call on [id] by the
    authority of that state reverts with "Request not pending" and leaves
    [s2] as it was, and a further call by anyone reverts. *)
Theorem processVerificationRequest_at_most_once
    (e e' : env) (id : Z) (h h' : string) (a a' : bool) (s s1 s2 : state) :
  execute (ProcessVerificationRequest id h a) e s = (Done RNone, s1) ->
  later s1 s2 ->
  isPending (request_at s id) = true /\
  isPending (request_at s1 id) = false /\
  (msg_sender e' = verificationAuthority s2 ->
   execute (ProcessVerificationRequest id h' a') e' s2 =
   (Revert (Error "Request not pending"), s2)) /\
  (exists f, execute (ProcessVerificationRequest id h' a') e' s2 = (Revert f, s2)).
Proof.
  intros Hok Hlater.
  apply processVerificationRequest_success in Hok as (_ & _ & Hpend & _ & Hp).
  pose proof (processed_later id s1 s2 Hlater Hp) as Hp2.
  split; [done |]. split; [apply Hp |]. split.
  - intros Hauth. by apply processVerificationRequest_not_pending.
  - by apply processVerificationRequest_never_again.
Qed.

(** C4 on the sample history: request 0 is approved, the record is later
    deactivated, and the authority tries to process request 0 again. *)
Lemma processVerificationRequest_at_most_once_witness :
  execute (ProcessVerificationRequest 0 "employerHashX" true) (mkEnv 1 3000)
    submitted = (Done RNone, approved) /\
  later approved deactivated /\
  msg_sender (mkEnv 1 7000) = verificationAuthority deactivated /\
  execute (ProcessVerificationRequest 0 "again" false) (mkEnv 1 7000)
    deactivated = (Revert (Error "Request not pending"), deactivated).
Proof.
  assert (H1 : execute (ProcessVerificationRequest 0 "employerHashX" true)
                 (mkEnv 1 3000) submitted = (Done RNone, approved))
    by (vm_compute; reflexivity).
  assert (H2 : later approved deactivated).
  { apply rtc_once. exists (DeactivateVerification 0), (mkEnv 2 5000).
    vm_compute. reflexivity. }
  assert (H3 : msg_sender (mkEnv 1 7000) = verificationAuthority deactivated)
    by (vm_compute; reflexivity).
  split; [exact H1 |]. split; [exact H2 |]. split; [exact H3 |].
  destruct (processVerificationRequest_at_most_once (mkEnv 1 3000)
              (mkEnv 1 7000) 0 "employerHashX" "again" true false
              submitted approved deactivated H1 H2) as (_ & _ & Hagain & _).
  exact (Hagain H3).
Defined.

(** C5: after a successful approval the record stored under the old
    [verificationCount] is verified and active, its verification time is
    the block time and its expiry time is the verification time plus
    31536000 seconds (365 days), and the counter has advanced by one.  After
    a successful rejection the counter, the records and the per-user record
    lists are what they were. *)
Theorem approval_and_rejection (e : env) (id : Z) (h : string) (s s' : state) :
  (execute (ProcessVerificationRequest id h true) e s = (Done RNone, s') ->
   let v := verification_at s' (verificationCount s) in
   isVerified v = true /\ isActive v = true /\
   verificationTime v = block_timestamp e /\
   expiryTime v = verificationTime v + 31536000 /\
   verificationCount s' = verificationCount s + 1) /\
  (execute (ProcessVerificationRequest id h false) e s = (Done RNone, s') ->
   verificationCount s' = verificationCount s /\
   verifications s' = verifications s /\
   userVerifications s' = userVerifications s).
Proof.
  split.
  - unfold_contract; simpl. intros H; run; simpl.
    unfold verification_at; simpl. rewrite lookup_insert_eq. simpl.
    repeat split; reflexivity.
  - unfold_contract; simpl. intros H; run; simpl. done.
Qed.

(** C5 on the sample history: request 0 approved at time 3000, and the same
    request rejected instead. *)
Lemma approval_and_rejection_witness :
  execute (ProcessVerificationRequest 0 "employerHashX" true) (mkEnv 1 3000)
    submitted = (Done RNone, approved) /\
  execute (ProcessVerificationRequest 0 "employerHashX" false) (mkEnv 1 3000)
    submitted = (Done RNone, rejected) /\
  (isVerified (verification_at approved (verificationCount submitted)) = true /\
   isActive (verification_at approved (verificationCount submitted)) = true /\
   verificationTime (verification_at approved (verificationCount submitted)) = 3000 /\
   expiryTime (verification_at approved (verificationCount submitted)) =
     verificationTime (verification_at approved (verificationCount submitted))
     + 31536000 /\
   verificationCount approved = verificationCount submitted + 1) /\
  (verificationCount rejected = verificationCount submitted /\
   verifications rejected = verifications submitted /\
   userVerifications rejected = userVerifications submitted).
Proof.
  assert (H1 : execute (ProcessVerificationRequest 0 "employerHashX" true)
                 (mkEnv 1 3000) submitted = (Done RNone, approved))
    by (vm_compute; reflexivity).
  assert (H2 : execute (ProcessVerificationRequest 0 "employerHashX" false)
                 (mkEnv 1 3000) submitted = (Done RNone, rejected))
    by (vm_compute; reflexivity).
  split; [exact H1 |]. split; [exact H2 |]. split.
  - exact (proj1 (approval_and_rejection (mkEnv 1 3000) 0 "employerHashX"
                    submitted approved) H1).
  - exact (proj2 (approval_and_rejection (mkEnv 1 3000) 0 "employerHashX"
                    submitted rejected) H2).
Defined.

(** ** Deactivating a record *)

(** C9, as amended: a failing [deactivateVerification] reverts with one of
    four messages, the three of the modifier [validVerification] ("Invalid
    verification ID", "Verification not active", "Verification expired")
    and "Not authorized".  When the record is valid and the caller is its
    owner or the authority the call succeeds. *)
Theorem deactivateVerification_failure_modes (e : env) (id : Z) (s : state) :
  (forall f, fst (execute (DeactivateVerification id) e s) = Revert f ->
     f = Error "Invalid verification ID" \/
     f = Error "Verification not active" \/
     f = Error "Verification expired" \/
     f = Error "Not authorized") /\
  (fst (isVerificationValid e id s) = Done true ->
   msg_sender e = verifiedUser (verification_at s id) \/
   msg_sender e = verificationAuthority s ->
   fst (execute (DeactivateVerification id) e s) = Done RNone).
Proof.
  split.
  - intros f. unfold_contract; simpl. run; simpl; intros; simplify_eq; auto.
  - rewrite isVerificationValid_run. simpl. intros Hv Hwho.
    destruct (Z.leb_spec (verificationCount s) id) as [|Hlt]; [done |].
    injection Hv as Hv. apply andb_prop in Hv as [Hav Hexp].
    apply andb_prop in Hav as [Hact _].
    unfold_contract; simpl.
    assert ((id <? verificationCount s) = true) as -> by lia. simpl.
    rewrite Hact. simpl. rewrite Hexp. simpl.
    destruct Hwho as [Hown|Hauth].
    + rewrite (bool_decide_eq_true_2 _ (eq_sym Hown)). done.
    + rewrite (bool_decide_eq_true_2 _ Hauth), orb_true_r. done.
Qed.

(** C9 as amended, on the sample history: the owner deactivates the valid
    record 0, and a stranger's attempt fails with one of the four
    messages. *)
Lemma deactivateVerification_failure_modes_witness :
  fst (isVerificationValid (mkEnv 2 5000) 0 approved) = Done true /\
  msg_sender (mkEnv 2 5000) = verifiedUser (verification_at approved 0) /\
  fst (execute (DeactivateVerification 0) (mkEnv 2 5000) approved) = Done RNone /\
  fst (execute (DeactivateVerification 0) (mkEnv 3 5000) approved) =
    Revert (Error "Not authorized") /\
  (Error "Not authorized" = Error "Invalid verification ID" \/
   Error "Not authorized" = Error "Verification not active" \/
   Error "Not authorized" = Error "Verification expired" \/
   Error "Not authorized" = Error "Not authorized").
Proof.
  assert (H1 : fst (isVerificationValid (mkEnv 2 5000) 0 approved) = Done true)
    by (vm_compute; reflexivity).
  assert (H2 : msg_sender (mkEnv 2 5000) = verifiedUser (verification_at approved 0))
    by (vm_compute; reflexivity).
  assert (H3 : fst (execute (DeactivateVerification 0) (mkEnv 3 5000) approved) =
               Revert (Error "Not authorized")) by (vm_compute; reflexivity).
  split; [exact H1 |]. split; [exact H2 |]. split; [| split; [exact H3 |]].
  - exact (proj2 (deactivateVerification_failure_modes (mkEnv 2 5000) 0 approved)
             H1 (or_introl H2)).
  - exact (proj1 (deactivateVerification_failure_modes (mkEnv 3 5000) 0 approved)
             _ H3).
Defined.

(** C9 as first stated fails: the owner's second [deactivateVerification]
    on record 0 reverts with "Verification not active", which is neither
    "Not authorized" nor "Invalid verification ID". *)
Lemma deactivateVerification_twice :
  msg_sender (mkEnv 2 6000) = verifiedUser (verification_at deactivated 0) /\
  fst (execute (DeactivateVerification 0) (mkEnv 2 6000) deactivated) =
    Revert (Error "Verification not active") /\
  fst (execute (DeactivateVerification 0) (mkEnv 2 6000) deactivated) <>
    Revert (Error "Not authorized") /\
  fst (execute (DeactivateVerification 0) (mkEnv 2 6000) deactivated) <>
    Revert (Error "Invalid verification ID").
Proof. vm_compute. repeat split; discriminate. Qed.

Section RecordLifecycle.
Variable id : Z.

Lemma retired_step (s s' : state) :
  step s s' -> retired id s -> retired id s'.
Proof.
  intros (c & e & <-) [Hlt Hp]. unfold retired.
  destruct c; unfold_contract; simpl; run; simpl; try (split; assumption).
  all: unfold verification_at in *; simpl.
  all: read_after_write; try lia; try done.
  all: split; [lia | done].
Qed.

Lemma retired_later (s s' : state) :
  later s s' -> retired id s -> retired id s'.
Proof.
  induction 1 as [|s1 s2 s3 Hstep _ IH]; [done |].
  intros Hp. apply IH. by apply (retired_step s1).
Qed.

Lemma only_deactivation_retires (c : call) (e : env) (s : state) :
  id < verificationCount s ->
  isActive (verification_at s id) = true ->
  isActive (verification_at (snd (execute c e s)) id) = false ->
  c = DeactivateVerification id.
Proof.
  intros Hlt Hact.
  destruct c; unfold_contract; simpl; run; simpl; try congruence.
  all: unfold verification_at in *; simpl.
  all: read_after_write; try lia; try congruence.
Qed.
End RecordLifecycle.

(** C10: for a record that exists in [s] (its ID is below
    [verificationCount]) and any later state [s'], if the record is
    inactive in [s] it is inactive in [s']; and a single call that turns an
    active record inactive is [deactivateVerification] on that record. *)
Theorem isActive_only_falls (id : Z) (s s' : state) :
  id < verificationCount s ->
  later s s' ->
  (isActive (verification_at s id) = false ->
   isActive (verification_at s' id) = false) /\
  (forall c e,
     isActive (verification_at s id) = true ->
     isActive (verification_at (snd (execute c e s)) id) = false ->
     c = DeactivateVerification id).
Proof.
  intros Hlt Hlater. split.
  - intros Hoff. by destruct (retired_later id s s' Hlater (conj Hlt Hoff)).
  - intros c e. by apply only_deactivation_retires.
Qed.

(** C10 on the sample history: after record 0 is deactivated its owner
    submits again and the authority approves; record 0 stays inactive. *)
Lemma isActive_only_falls_witness :
  0 < verificationCount deactivated /\
  later deactivated reapproved /\
  isActive (verification_at deactivated 0) = false /\
  isActive (verification_at reapproved 0) = false.
Proof.
  assert (H1 : 0 < verificationCount deactivated) by (vm_compute; reflexivity).
  assert (H2 : later deactivated reapproved).
  { apply (rtc_l _ _ resubmitted).
    - exists (RequestIncomeVerification 7 12 "QmDoc2"), (mkEnv 2 6000).
      vm_compute. reflexivity.
    - apply rtc_once.
      exists (ProcessVerificationRequest 1 "employerHashY" true), (mkEnv 1 7000).
      vm_compute. reflexivity. }
  assert (H3 : isActive (verification_at deactivated 0) = false)
    by (vm_compute; reflexivity).
  split; [exact H1 |]. split; [exact H2 |]. split; [exact H3 |].
  exact (proj1 (isActive_only_falls 0 deactivated reapproved H1 H2) H3).
Defined.

(** ** Failed calls *)

Lemma require_failure_before_write (c : call) (e : env) (s : state) (msg : string) :
  fst (body c e s) = Revert (Error msg) -> snd (body c e s) = s.
Proof.
  destruct c; unfold_contract; simpl; run; try done.
Qed.

(** A panic may come after a write: with the request counter at its last
    value the submission has stored the request before the increment
    overflows, and the rollback removes it again. *)
Example overflow_after_write :
  fst (body (RequestIncomeVerification 5 48 "QmDoc") (mkEnv 2 2000) exhausted) =
    Revert (Panic 17) /\
  isPending (request_at
    (snd (body (RequestIncomeVerification 5 48 "QmDoc") (mkEnv 2 2000) exhausted))
    uint256_max) = true /\
  snd (execute (RequestIncomeVerification 5 48 "QmDoc") (mkEnv 2 2000) exhausted) =
    exhausted.
Proof. vm_compute. repeat split. Qed.

(** C7: for every call of the interface, every caller and time, and every
    starting state, a call that fails leaves the state it started from;
    and when the failure is a failed [require] (an error message), the
    function itself had written nothing when it stopped: each [require]
    comes before the first write. *)
Theorem failed_call_changes_nothing (c : call) (e : env) (s : state) (f : failure) :
  fst (execute c e s) = Revert f ->
  snd (execute c e s) = s /\
  (forall msg, f = Error msg -> snd (body c e s) = s).
Proof.
  intros Hf. split.
  - by apply external_call_revert in Hf.
  - intros msg ->. apply (require_failure_before_write c e s msg).
    unfold execute, external_call in Hf.
    destruct (body c e s) as [[a|g] s']; simpl in *; congruence.
Qed.

(** C7 on the sample history: account 3 tries to approve request 0. *)
Lemma failed_call_changes_nothing_witness :
  fst (execute (ProcessVerificationRequest 0 "employerHashX" true)
         (mkEnv 3 2500) submitted) = Revert (Error "Not authorized") /\
  snd (execute (ProcessVerificationRequest 0 "employerHashX" true)
         (mkEnv 3 2500) submitted) = submitted /\
  snd (body (ProcessVerificationRequest 0 "employerHashX" true)
         (mkEnv 3 2500) submitted) = submitted.
Proof.
  assert (H1 : fst (execute (ProcessVerificationRequest 0 "employerHashX" true)
                      (mkEnv 3 2500) submitted) = Revert (Error "Not authorized"))
    by (vm_compute; reflexivity).
  split; [exact H1 |].
  destruct (failed_call_changes_nothing _ _ _ _ H1) as [Hsame Hclean].
  split; [exact Hsame |]. exact (Hclean "Not authorized" eq_refl).
Defined.

(** * Further properties of the registry *)

(** ** The sample history, step by step *)

Lemma later_deployed_submitted : later deployed submitted.
Proof.
  apply rtc_once. exists (RequestIncomeVerification 5 48 "QmDoc"), (mkEnv 2 2000).
  vm_compute. reflexivity.
Qed.

Lemma later_submitted_approved : later submitted approved.
Proof.
  apply rtc_once.
  exists (ProcessVerificationRequest 0 "employerHashX" true), (mkEnv 1 3000).
  vm_compute. reflexivity.
Qed.

Lemma later_approved_deactivated : later approved deactivated.
Proof.
  apply rtc_once. exists (DeactivateVerification 0), (mkEnv 2 5000).
  vm_compute. reflexivity.
Qed.

Lemma later_deactivated_reapproved : later deactivated reapproved.
Proof.
  apply (rtc_l _ _ resubmitted).
  - exists (RequestIncomeVerification 7 12 "QmDoc2"), (mkEnv 2 6000).
    vm_compute. reflexivity.
  - apply rtc_once.
    exists (ProcessVerificationRequest 1 "employerHashY" true), (mkEnv 1 7000).
    vm_compute. reflexivity.
Qed.

Lemma reachable_submitted : reachable submitted.
Proof. exists (mkEnv 1 1000). apply later_deployed_submitted. Qed.

Lemma reachable_approved : reachable approved.
Proof.
  exists (mkEnv 1 1000). etrans; [apply later_deployed_submitted |].
  apply later_submitted_approved.
Qed.

Lemma reachable_reapproved : reachable reapproved.
Proof.
  destruct reachable_approved as [e0 H]. exists e0.
  etrans; [exact H |]. etrans; [apply later_approved_deactivated |].
  apply later_deactivated_reapproved.
Qed.

(** ** How a call changes the state *)

Lemma nonempty_of_length (d : string) :
  (0 <? Z.of_nat (String.length d)) = true -> d <> "".
Proof. by intros H ->. Qed.

(** Recognise the state a finished run has reached. *)
Ltac name_state e :=
  match goal with
  | |- changes _ ?s0 (RequestIncomeVerification ?l ?m ?d) ?x =>
      replace x with (after_request e l m d s0) by reflexivity
  | |- changes _ ?s0 (ProcessVerificationRequest ?i ?h true) ?x =>
      replace x with (after_approve e i h s0);
      [| unfold after_approve, approved_record_of, request_at, verification_at,
           user_verifications_at, with_verificationCount, with_events; simpl;
         rewrite ?lookup_insert_eq; simpl; reflexivity]
  | |- changes _ ?s0 (ProcessVerificationRequest ?i ?h false) ?x =>
      replace x with (after_reject i s0) by reflexivity
  | |- changes _ ?s0 (DeactivateVerification ?i) ?x =>
      replace x with (after_deactivate i s0) by reflexivity
  | |- changes _ ?s0 (UpdateVerificationAuthority ?a) _ => idtac
  end.

(** Turn the passed checks of a run into propositions. *)
Ltac use_checks :=
  repeat match goal with
  | H : bool_decide _ = true |- _ => apply bool_decide_eq_true_1 in H
  | H : negb (bool_decide _) = true |- _ =>
      apply negb_true_iff, bool_decide_eq_false_1 in H
  | H : _ || _ = true |- _ => apply orb_prop in H
  | H : (0 <? Z.of_nat (String.length _)) = true |- _ =>
      apply nonempty_of_length in H
  | H : (_ <? _) = true |- _ => apply Z.ltb_lt in H
  | H : (_ <=? _) = true |- _ => apply Z.leb_le in H
  end.

(** Conclude that a finished run is one of the writing paths. *)
Ltac close_change e :=
  name_state e; use_checks; constructor;
  try assumption; try lia; try (repeat split; (assumption || lia));
  try (match goal with
       | H : _ \/ _ |- _ =>
           destruct H as [H|H]; apply bool_decide_eq_true_1 in H;
           [left | right]; assumption
       end).

Lemma execute_changes (c : call) (e : env) (s : state) :
  snd (execute c e s) = s \/ changes e s c (snd (execute c e s)).
Proof.
  destruct c; unfold_contract; simpl; run; simpl; try (by left); right;
    close_change e.
Qed.

Lemma success_changes (c : call) (e : env) (s s' : state) (r : returndata) :
  writes c -> execute c e s = (Done r, s') -> changes e s c s'.
Proof.
  destruct c; simpl; try done; intros _; unfold_contract; simpl;
    intros H; run; simpl; close_change e.
Qed.

Lemma changes_execute (c : call) (e : env) (s s' : state) :
  changes e s c s' -> execute c e s = (Done RNone, s').
Proof.
  destruct 1 as [lvl months doc Hl Hm Hd Hrc | id h Hauth Hlt Hpend Hh
                | id h Hauth Hlt Hpend Hh Hts Hvc | id (Hlt & Hact & Hexp) Hwho
                | a Hauth Ha].
  - unfold_contract; simpl.
    assert ((0 <? lvl) = true) as -> by lia.
    assert ((0 <? months) = true) as -> by lia.
    rewrite (nonempty_length doc Hd). simpl.
    assert ((requestCounter s + 1 <=? uint256_max) = true) as -> by lia.
    reflexivity.
  - unfold_contract; simpl.
    rewrite bool_decide_eq_true_2 by done. simpl.
    assert ((id <? requestCounter s) = true) as -> by lia. simpl.
    rewrite Hpend. simpl. rewrite (nonempty_length h Hh). reflexivity.
  - unfold_contract; simpl.
    rewrite bool_decide_eq_true_2 by done. simpl.
    assert ((id <? requestCounter s) = true) as -> by lia. simpl.
    rewrite Hpend. simpl. rewrite (nonempty_length h Hh). simpl.
    assert ((block_timestamp e + VERIFICATION_VALIDITY_PERIOD <=? uint256_max)
            = true) as -> by lia. simpl.
    assert ((verificationCount s + 1 <=? uint256_max) = true) as -> by lia.
    simpl. f_equal.
    unfold after_approve, approved_record_of, request_at, verification_at,
      user_verifications_at, with_verificationCount, with_events; simpl.
    rewrite ?lookup_insert_eq; simpl. reflexivity.
  - unfold_contract; simpl.
    assert ((id <? verificationCount s) = true) as -> by lia. simpl.
    rewrite Hact. simpl.
    assert ((block_timestamp e <=? expiryTime (verification_at s id)) = true)
      as -> by lia. simpl.
    assert (bool_decide (verifiedUser (verification_at s id) = msg_sender e)
            || bool_decide (msg_sender e = verificationAuthority s) = true) as ->.
    { destruct Hwho as [Ho|Ha].
      - by rewrite (bool_decide_eq_true_2 _ Ho).
      - rewrite (bool_decide_eq_true_2 _ Ha). apply orb_true_r. }
    reflexivity.
  - unfold_contract; simpl.
    rewrite bool_decide_eq_true_2 by done. simpl.
    rewrite bool_decide_eq_false_2 by done. reflexivity.
Qed.

Lemma later_invariant (P : state -> Prop) :
  (forall e s c s', P s -> changes e s c s' -> P s') ->
  forall s s', later s s' -> P s -> P s'.
Proof.
  intros Hstep s s' Hlater. induction Hlater as [|s1 s2 s3 (c & e & <-) _ IH];
    [done |].
  intros HP. apply IH.
  destruct (execute_changes c e s1) as [-> | Hch]; [done |].
  by apply (Hstep e s1 c).
Qed.

Lemma later_preorder (R : relation state) :
  (forall s, R s s) -> (forall s1 s2 s3, R s1 s2 -> R s2 s3 -> R s1 s3) ->
  (forall e s c s', changes e s c s' -> R s s') ->
  forall s s', later s s' -> R s s'.
Proof.
  intros Hrefl Htrans Hstep s s' Hlater.
  induction Hlater as [|s1 s2 s3 (c & e & <-) _ IH]; [done |].
  apply (Htrans _ (snd (execute c e s1))); [| done].
  destruct (execute_changes c e s1) as [-> | Hch]; [done |].
  by apply (Hstep e s1 c).
Qed.

Lemma getRequestInfo_run (e : env) (id : Z) (s : state) :
  execute (GetRequestInfo id) e s =
  if id <? requestCounter s then
    if bool_decide (requester (request_at s id) = msg_sender e)
       || bool_decide (msg_sender e = verificationAuthority s)
    then (Done (RRequestInfo
                  (mkRequestInfo (requester (request_at s id))
                     (isPending (request_at s id)) (requestTime (request_at s id))
                     (documentHash (request_at s id)))), s)
    else (Revert (Error "Not authorized"), s)
  else (Revert (Error "Invalid request ID"), s).
Proof. unfold_contract; simpl. run; reflexivity. Qed.

Lemma gated_run {A} (e : env) (id : Z) (s : state) (k : M A) :
  (validVerification e id;; k) s =
  if id <? verificationCount s then
    if isActive (verification_at s id) then
      if block_timestamp e <=? expiryTime (verification_at s id)
      then k s
      else (Revert (Error "Verification expired"), s)
    else (Revert (Error "Verification not active"), s)
  else (Revert (Error "Invalid verification ID"), s).
Proof.
  unfold mbind, M_bind. rewrite validVerification_run. run; reflexivity.
Qed.

Lemma getVerificationInfo_run (e : env) (id : Z) (s : state) :
  validVerification_holds e id s ->
  verifiedUser (verification_at s id) = msg_sender e \/
  msg_sender e = verificationAuthority s ->
  execute (GetVerificationInfo id) e s =
  (Done (RVerificationInfo (info_of (verification_at s id))), s).
Proof.
  intros Hv Hwho. unfold execute, body, getVerificationInfo, external_call,
    fmap, M_fmap, mbind, M_bind.
  rewrite (validVerification_pass e id s Hv). unfold read, require.
  assert (bool_decide (verifiedUser (verification_at s id) = msg_sender e)
          || bool_decide (msg_sender e = verificationAuthority s) = true) as ->.
  { destruct Hwho as [Ho|Ha].
    - by rewrite (bool_decide_eq_true_2 _ Ho).
    - rewrite (bool_decide_eq_true_2 _ Ha). apply orb_true_r. }
  reflexivity.
Qed.

(** ** The authority and the other callers *)

(** X1: a call after which [verificationAuthority] differs is
    [updateVerificationAuthority], made by the authority in office, with a
    non-zero address that becomes the new authority. *)
Theorem authority_changes_only_by_itself (c : call) (e : env) (s : state) :
  verificationAuthority (snd (execute c e s)) <> verificationAuthority s ->
  msg_sender e = verificationAuthority s /\
  exists a, c = UpdateVerificationAuthority a /\ a <> 0 /\
            verificationAuthority (snd (execute c e s)) = a.
Proof.
  intros Hne. destruct (execute_changes c e s) as [Hsame | Hch].
  - by rewrite Hsame in Hne.
  - destruct Hch; simpl in *; try done. split; [done |]. by exists a.
Qed.

(** X1 on the sample history: account 1 hands over to account 9. *)
Lemma authority_changes_only_by_itself_witness :
  verificationAuthority
    (snd (execute (UpdateVerificationAuthority 9) (mkEnv 1 8000) reapproved))
    <> verificationAuthority reapproved /\
  msg_sender (mkEnv 1 8000) = verificationAuthority reapproved.
Proof.
  assert (H1 : verificationAuthority
                 (snd (execute (UpdateVerificationAuthority 9) (mkEnv 1 8000)
                         reapproved))
               <> verificationAuthority reapproved)
    by (vm_compute; discriminate).
  split; [exact H1 |].
  exact (proj1 (authority_changes_only_by_itself _ _ _ H1)).
Defined.

(** X2: if the authority is not the zero address, it is not the zero
    address in any later state. *)
Theorem authority_never_zero (s s' : state) :
  later s s' -> verificationAuthority s <> 0 -> verificationAuthority s' <> 0.
Proof.
  apply (later_invariant (fun s => verificationAuthority s <> 0)).
  intros e s0 c s0' Hnz Hch. by destruct Hch.
Qed.

(** X2 on the sample history, from deployment to the second approval. *)
Lemma authority_never_zero_witness :
  later deployed reapproved /\ verificationAuthority deployed <> 0 /\
  verificationAuthority reapproved <> 0.
Proof.
  assert (H1 : later deployed reapproved).
  { etrans; [apply later_deployed_submitted |].
    etrans; [apply later_submitted_approved |].
    etrans; [apply later_approved_deactivated |].
    apply later_deactivated_reapproved. }
  assert (H2 : verificationAuthority deployed <> 0) by (vm_compute; discriminate).
  split; [exact H1 |]. split; [exact H2 |].
  exact (authority_never_zero deployed reapproved H1 H2).
Defined.

(** X3: after a successful [updateVerificationAuthority] to another
    address, the former authority is turned away with "Not authorized" from
    [processVerificationRequest] and [updateVerificationAuthority], and from
    the request list of any other user. *)
Theorem authority_handover (e e' : env) (a : address) (s s1 : state) :
  execute (UpdateVerificationAuthority a) e s = (Done RNone, s1) ->
  a <> msg_sender e ->
  msg_sender e' = msg_sender e ->
  verificationAuthority s1 = a /\
  (forall id h b,
     execute (ProcessVerificationRequest id h b) e' s1 =
     (Revert (Error "Not authorized"), s1)) /\
  (forall b,
     execute (UpdateVerificationAuthority b) e' s1 =
     (Revert (Error "Not authorized"), s1)) /\
  (forall u, u <> msg_sender e ->
     execute (GetUserRequests u) e' s1 = (Revert (Error "Not authorized"), s1)).
Proof.
  intros Hok Hne He'.
  assert (Hs1 : s1 = with_authority a s /\ msg_sender e = verificationAuthority s).
  { revert Hok. unfold_contract; simpl. intros Hok; run.
    split; [done |]. eapply bool_decide_eq_true_1; eassumption. }
  destruct Hs1 as [-> Hauth]. split; [done |].
  assert (Hno : bool_decide (msg_sender e' = a) = false).
  { apply bool_decide_eq_false_2. congruence. }
  repeat split.
  - intros id h b. unfold_contract; simpl. by rewrite Hno.
  - intros b. unfold_contract; simpl. by rewrite Hno.
  - intros u Hu. unfold_contract; simpl. rewrite Hno.
    rewrite bool_decide_eq_false_2 by congruence. done.
Qed.

(** X3 on the sample history: account 1 after handing over to account 9. *)
Lemma authority_handover_witness :
  execute (UpdateVerificationAuthority 9) (mkEnv 1 8000) reapproved =
    (Done RNone, handed_over) /\
  9 <> msg_sender (mkEnv 1 8000) /\
  verificationAuthority handed_over = 9 /\
  execute (ProcessVerificationRequest 0 "x" true) (mkEnv 1 9000) handed_over =
    (Revert (Error "Not authorized"), handed_over).
Proof.
  assert (H1 : execute (UpdateVerificationAuthority 9) (mkEnv 1 8000) reapproved =
               (Done RNone, handed_over)) by (vm_compute; reflexivity).
  assert (H2 : 9 <> msg_sender (mkEnv 1 8000)) by (vm_compute; discriminate).
  destruct (authority_handover (mkEnv 1 8000) (mkEnv 1 9000) 9 reapproved
              handed_over H1 H2 eq_refl) as (Hnew & Hproc & _).
  split; [exact H1 |]. split; [exact H2 |]. split; [exact Hnew |].
  exact (Hproc 0 "x" true).
Defined.

(** X4: whatever a caller other than the authority calls, the authority,
    the record counter and the per-user record lists stay as they are, no
    existing request changes, no record of another owner changes, and no
    other user's request list changes. *)
Theorem stranger_cannot_touch_others (c : call) (e : env) (s : state) :
  msg_sender e <> verificationAuthority s ->
  verificationAuthority (snd (execute c e s)) = verificationAuthority s /\
  verificationCount (snd (execute c e s)) = verificationCount s /\
  userVerifications (snd (execute c e s)) = userVerifications s /\
  (forall id, id < requestCounter s ->
     request_at (snd (execute c e s)) id = request_at s id) /\
  (forall id, verifiedUser (verification_at s id) <> msg_sender e ->
     verification_at (snd (execute c e s)) id = verification_at s id) /\
  (forall u, u <> msg_sender e ->
     user_requests_at (snd (execute c e s)) u = user_requests_at s u).
Proof.
  intros Hno. destruct (execute_changes c e s) as [-> | Hch]; [done |].
  destruct Hch as [lvl months doc Hl Hm Hd Hrc | id h Hauth Hlt Hpend Hh
                  | id h Hauth Hlt Hpend Hh Hts Hvc | id Hvalid Hwho
                  | a Hauth Ha]; try done.
  - repeat split; try done.
    + intros id Hid. unfold request_at; simpl.
      rewrite lookup_insert_ne by lia. done.
    + intros u Hu. unfold user_requests_at at 1; simpl.
      rewrite lookup_insert_ne by done. done.
  - destruct Hwho as [Hown | Hauth]; [| done].
    repeat split; try done.
    intros id' Hother. unfold verification_at at 1; simpl.
    rewrite lookup_insert_ne by congruence. done.
Qed.

(** X4 on the sample history: account 3 tries to deactivate record 0 of
    account 2. *)
Lemma stranger_cannot_touch_others_witness :
  msg_sender (mkEnv 3 4000) <> verificationAuthority approved /\
  verifiedUser (verification_at approved 0) <> msg_sender (mkEnv 3 4000) /\
  verification_at
    (snd (execute (DeactivateVerification 0) (mkEnv 3 4000) approved)) 0 =
  verification_at approved 0.
Proof.
  assert (H1 : msg_sender (mkEnv 3 4000) <> verificationAuthority approved)
    by (vm_compute; discriminate).
  assert (H2 : verifiedUser (verification_at approved 0) <> msg_sender (mkEnv 3 4000))
    by (vm_compute; discriminate).
  split; [exact H1 |]. split; [exact H2 |].
  destruct (stranger_cannot_touch_others (DeactivateVerification 0)
              (mkEnv 3 4000) approved H1) as (_ & _ & _ & _ & Hrec & _).
  exact (Hrec 0 H2).
Defined.

(** ** Rejected inputs *)

(** X5: [requestIncomeVerification] checks its arguments in order: an
    income level of zero gives "Income level must be greater than 0"; then a
    duration of zero gives "Employment duration must be greater than 0";
    then an empty document hash gives "Document hash required"; and with
    the request counter at the last [uint256] a valid submission panics
    (0x11).  The state is unchanged each time. *)
Theorem requestIncomeVerification_rejections (e : env) (lvl months : Z)
    (doc : string) (s : state) :
  (lvl <= 0 ->
   execute (RequestIncomeVerification lvl months doc) e s =
   (Revert (Error "Income level must be greater than 0"), s)) /\
  (0 < lvl -> months <= 0 ->
   execute (RequestIncomeVerification lvl months doc) e s =
   (Revert (Error "Employment duration must be greater than 0"), s)) /\
  (0 < lvl -> 0 < months -> doc = "" ->
   execute (RequestIncomeVerification lvl months doc) e s =
   (Revert (Error "Document hash required"), s)) /\
  (0 < lvl -> 0 < months -> doc <> "" -> uint256_max <= requestCounter s ->
   execute (RequestIncomeVerification lvl months doc) e s =
   (Revert (Panic 17), s)).
Proof.
  repeat split.
  - intros Hl. unfold_contract; simpl.
    by assert ((0 <? lvl) = false) as -> by lia.
  - intros Hl Hm. unfold_contract; simpl.
    assert ((0 <? lvl) = true) as -> by lia. simpl.
    by assert ((0 <? months) = false) as -> by lia.
  - intros Hl Hm ->. unfold_contract; simpl.
    assert ((0 <? lvl) = true) as -> by lia. simpl.
    by assert ((0 <? months) = true) as -> by lia.
  - intros Hl Hm Hd Hmax. unfold_contract; simpl.
    assert ((0 <? lvl) = true) as -> by lia. simpl.
    assert ((0 <? months) = true) as -> by lia. simpl.
    rewrite (nonempty_length doc Hd). simpl.
    by assert ((requestCounter s + 1 <=? uint256_max) = false) as -> by lia.
Qed.

(** X5 on the fresh registry: an empty document hash. *)
Lemma requestIncomeVerification_rejections_witness :
  0 < 5 /\ 0 < 48 /\
  execute (RequestIncomeVerification 5 48 "") (mkEnv 2 2000) deployed =
    (Revert (Error "Document hash required"), deployed).
Proof.
  assert (H1 : 0 < 5) by lia. assert (H2 : 0 < 48) by lia.
  split; [exact H1 |]. split; [exact H2 |].
  destruct (requestIncomeVerification_rejections (mkEnv 2 2000) 5 48 "" deployed)
    as (_ & _ & Hdoc & _).
  exact (Hdoc H1 H2 eq_refl).
Defined.

(** X6: [processVerificationRequest] turns away a caller other than the
    authority with "Not authorized" whatever the arguments; for the
    authority an ID at or above [requestCounter] gives "Invalid request ID",
    a processed request gives "Request not pending", and an empty employer
    hash gives "Employer hash required", for a rejection as for an
    approval. *)
Theorem processVerificationRequest_rejections (e : env) (id : Z) (h : string)
    (a : bool) (s : state) :
  (msg_sender e <> verificationAuthority s ->
   execute (ProcessVerificationRequest id h a) e s =
   (Revert (Error "Not authorized"), s)) /\
  (msg_sender e = verificationAuthority s ->
   (requestCounter s <= id ->
    execute (ProcessVerificationRequest id h a) e s =
    (Revert (Error "Invalid request ID"), s)) /\
   (id < requestCounter s -> isPending (request_at s id) = false ->
    execute (ProcessVerificationRequest id h a) e s =
    (Revert (Error "Request not pending"), s)) /\
   (id < requestCounter s -> isPending (request_at s id) = true -> h = "" ->
    execute (ProcessVerificationRequest id h a) e s =
    (Revert (Error "Employer hash required"), s))).
Proof.
  split.
  - intros Hno. unfold_contract; simpl.
    by rewrite bool_decide_eq_false_2 by done.
  - intros Hauth. repeat split.
    + intros Hge. unfold_contract; simpl.
      rewrite bool_decide_eq_true_2 by done. simpl.
      by assert ((id <? requestCounter s) = false) as -> by lia.
    + intros Hlt Hp. unfold_contract; simpl.
      rewrite bool_decide_eq_true_2 by done. simpl.
      assert ((id <? requestCounter s) = true) as -> by lia. simpl.
      by rewrite Hp.
    + intros Hlt Hp ->. unfold_contract; simpl.
      rewrite bool_decide_eq_true_2 by done. simpl.
      assert ((id <? requestCounter s) = true) as -> by lia. simpl.
      by rewrite Hp.
Qed.

(** X6 on the sample history: the authority rejects request 0 with an
    empty employer hash. *)
Lemma processVerificationRequest_rejections_witness :
  msg_sender (mkEnv 1 3000) = verificationAuthority submitted /\
  0 < requestCounter submitted /\
  isPending (request_at submitted 0) = true /\
  execute (ProcessVerificationRequest 0 "" false) (mkEnv 1 3000) submitted =
    (Revert (Error "Employer hash required"), submitted).
Proof.
  assert (H1 : msg_sender (mkEnv 1 3000) = verificationAuthority submitted)
    by (vm_compute; reflexivity).
  assert (H2 : 0 < requestCounter submitted) by (vm_compute; reflexivity).
  assert (H3 : isPending (request_at submitted 0) = true)
    by (vm_compute; reflexivity).
  split; [exact H1 |]. split; [exact H2 |]. split; [exact H3 |].
  destruct (processVerificationRequest_rejections (mkEnv 1 3000) 0 "" false
              submitted) as [_ Hauth].
  destruct (Hauth H1) as (_ & _ & Hhash).
  exact (Hhash H2 H3 eq_refl).
Defined.

(** ** What never changes *)

Lemma requests_kept_step (e : env) (s : state) (c : call) (s' : state) :
  changes e s c s' -> requests_kept s s'.
Proof.
  intros Hch. unfold requests_kept, request_identity.
  destruct Hch; simpl; (split; [lia |]); intros i Hi; try done.
  - unfold request_at; simpl. rewrite lookup_insert_ne by lia. done.
  - unfold request_at at 1 3; simpl. rewrite lookup_insert.
    case_decide; subst; simpl; [| done].
    split; [done | discriminate].
  - unfold request_at at 1 3; simpl. rewrite lookup_insert.
    case_decide; subst; simpl; [| done].
    split; [done | discriminate].
Qed.

Lemma requests_kept_later (s s' : state) : later s s' -> requests_kept s s'.
Proof.
  apply later_preorder.
  - intros s0. split; [lia | done].
  - intros s1 s2 s3 [Hc1 H1] [Hc2 H2]. split; [lia |].
    intros id Hid. destruct (H1 id Hid) as [Ha Hb].
    destruct (H2 id ltac:(lia)) as [Hc Hd]. split; [congruence | auto].
  - apply requests_kept_step.
Qed.

Lemma records_kept_later (s s' : state) : later s s' -> records_kept s s'.
Proof.
  apply later_preorder.
  - intros s0. split; [lia | done].
  - intros s1 s2 s3 [Hc1 H1] [Hc2 H2]. split; [lia |].
    intros id Hid. rewrite (H2 id ltac:(lia)). by apply H1.
  - intros e s0 c s0' Hch. unfold records_kept, record_identity.
    destruct Hch; simpl; (split; [lia |]); intros i Hi; try done.
    + unfold verification_at at 1; simpl. rewrite lookup_insert_ne by lia. done.
    + unfold verification_at at 1; simpl. rewrite lookup_insert.
      case_decide; subst; simpl; done.
Qed.

(** X7: the requester, the two handles, the request time and the document
    hash of an existing request are the same in every later state, the ID
    stays allocated, and a request that is pending later was pending
    before. *)
Theorem request_fields_never_change (id : Z) (s s' : state) :
  id < requestCounter s -> later s s' ->
  id < requestCounter s' /\
  requester (request_at s' id) = requester (request_at s id) /\
  claimedIncomeLevel (request_at s' id) = claimedIncomeLevel (request_at s id) /\
  employmentDuration (request_at s' id) = employmentDuration (request_at s id) /\
  requestTime (request_at s' id) = requestTime (request_at s id) /\
  documentHash (request_at s' id) = documentHash (request_at s id) /\
  (isPending (request_at s' id) = true -> isPending (request_at s id) = true).
Proof.
  intros Hid Hlater. destruct (requests_kept_later s s' Hlater) as [Hc Hk].
  destruct (Hk id Hid) as [Heq Hp]. split; [lia |].
  unfold request_identity, set_isPending in Heq.
  injection Heq as H1 H2 H3 H4 H5. done.
Qed.

(** X7 on the sample history: request 0 from its submission on. *)
Lemma request_fields_never_change_witness :
  0 < requestCounter submitted /\ later submitted reapproved /\
  documentHash (request_at reapproved 0) = documentHash (request_at submitted 0).
Proof.
  assert (H1 : 0 < requestCounter submitted) by (vm_compute; reflexivity).
  assert (H2 : later submitted reapproved).
  { etrans; [apply later_submitted_approved |].
    etrans; [apply later_approved_deactivated |].
    apply later_deactivated_reapproved. }
  split; [exact H1 |]. split; [exact H2 |].
  destruct (request_fields_never_change 0 submitted reapproved H1 H2)
    as (_ & _ & _ & _ & _ & Hdoc & _).
  exact Hdoc.
Defined.

(** X8: the owner, the two handles, [isVerified], the verification time,
    the expiry time and the employer hash of an existing record are the same
    in every later state; only [isActive] can differ. *)
Theorem record_fields_never_change (id : Z) (s s' : state) :
  id < verificationCount s -> later s s' ->
  id < verificationCount s' /\
  verifiedUser (verification_at s' id) = verifiedUser (verification_at s id) /\
  encryptedIncomeLevel (verification_at s' id) =
    encryptedIncomeLevel (verification_at s id) /\
  encryptedEmploymentMonths (verification_at s' id) =
    encryptedEmploymentMonths (verification_at s id) /\
  isVerified (verification_at s' id) = isVerified (verification_at s id) /\
  verificationTime (verification_at s' id) = verificationTime (verification_at s id) /\
  expiryTime (verification_at s' id) = expiryTime (verification_at s id) /\
  employerHash (verification_at s' id) = employerHash (verification_at s id).
Proof.
  intros Hid Hlater. destruct (records_kept_later s s' Hlater) as [Hc Hk].
  pose proof (Hk id Hid) as Heq. split; [lia |].
  unfold record_identity, set_isActive in Heq.
  injection Heq as H1 H2 H3 H4 H5 H6 H7. done.
Qed.

(** X8 on the sample history: record 0 from its approval on. *)
Lemma record_fields_never_change_witness :
  0 < verificationCount approved /\ later approved reapproved /\
  expiryTime (verification_at reapproved 0) = expiryTime (verification_at approved 0) /\
  verifiedUser (verification_at reapproved 0) =
    verifiedUser (verification_at approved 0).
Proof.
  assert (H1 : 0 < verificationCount approved) by (vm_compute; reflexivity).
  assert (H2 : later approved reapproved).
  { etrans; [apply later_approved_deactivated |].
    apply later_deactivated_reapproved. }
  split; [exact H1 |]. split; [exact H2 |].
  destruct (record_fields_never_change 0 approved reapproved H1 H2)
    as (_ & Hu & _ & _ & _ & _ & Hexp & _).
  split; [exact Hexp | exact Hu].
Defined.

(** X9: in every later state both counters are at least what they were,
    and the event log and the list of grants extend the earlier ones at the
    end. *)
Theorem counters_and_logs_only_grow (s s' : state) :
  later s s' ->
  requestCounter s <= requestCounter s' /\
  verificationCount s <= verificationCount s' /\
  events s `prefix_of` events s' /\
  acl s `prefix_of` acl s'.
Proof.
  apply (later_preorder (fun s s' =>
    requestCounter s <= requestCounter s' /\
    verificationCount s <= verificationCount s' /\
    events s `prefix_of` events s' /\
    acl s `prefix_of` acl s')).
  - intros s0. repeat split; (lia || done).
  - intros s1 s2 s3 (? & ? & ? & ?) (? & ? & ? & ?).
    repeat split; try lia; by etrans.
  - intros e s0 c s0' Hch.
    destruct Hch; simpl; repeat split; try lia; try done;
      rewrite <- ?app_assoc; by apply prefix_app_r.
Qed.

(** X9 on the sample history. *)
Lemma counters_and_logs_only_grow_witness :
  later submitted reapproved /\
  requestCounter submitted <= requestCounter reapproved /\
  events submitted `prefix_of` events reapproved.
Proof.
  assert (H1 : later submitted reapproved).
  { etrans; [apply later_submitted_approved |].
    etrans; [apply later_approved_deactivated |].
    apply later_deactivated_reapproved. }
  split; [exact H1 |].
  destruct (counters_and_logs_only_grow submitted reapproved H1)
    as (Hrc & _ & Hev & _).
  split; [exact Hrc | exact Hev].
Defined.

(** X10: no call renews a record: if the time of a query is past the
    expiry time a record has now, then in every later state
    [isVerificationValid] answers false and [getVerificationInfo] reverts
    with "Verification expired" or "Verification not active". *)
Theorem expired_stays_expired (e' : env) (id : Z) (s s' : state) :
  id < verificationCount s ->
  expiryTime (verification_at s id) < block_timestamp e' ->
  later s s' ->
  execute (IsVerificationValid id) e' s' = (Done (RBool false), s') /\
  (execute (GetVerificationInfo id) e' s' =
     (Revert (Error "Verification expired"), s') \/
   execute (GetVerificationInfo id) e' s' =
     (Revert (Error "Verification not active"), s')).
Proof.
  intros Hid Hexp Hlater.
  destruct (records_kept_later s s' Hlater) as [Hc Hk].
  pose proof (Hk id Hid) as Heq.
  unfold record_identity, set_isActive in Heq.
  injection Heq as _ _ _ _ Hx _ _.
  split.
  - unfold execute, body, external_call, fmap, M_fmap.
    rewrite isVerificationValid_run, Hx.
    destruct (verificationCount s' <=? id); [done |].
    assert ((block_timestamp e' <=? expiryTime (verification_at s id)) = false)
      as -> by lia.
    by rewrite andb_false_r.
  - unfold execute, body, getVerificationInfo, external_call, fmap, M_fmap.
    rewrite gated_run, Hx.
    assert ((id <? verificationCount s') = true) as -> by lia.
    assert ((block_timestamp e' <=? expiryTime (verification_at s id)) = false)
      as -> by lia.
    destruct (isActive (verification_at s' id)); [by left | by right].
Qed.

(** X10 on the sample history: record 0 queried at time 40000000. *)
Lemma expired_stays_expired_witness :
  0 < verificationCount approved /\
  expiryTime (verification_at approved 0) < block_timestamp (mkEnv 2 40000000) /\
  later approved reapproved /\
  execute (IsVerificationValid 0) (mkEnv 2 40000000) reapproved =
    (Done (RBool false), reapproved).
Proof.
  assert (H1 : 0 < verificationCount approved) by (vm_compute; reflexivity).
  assert (H2 : expiryTime (verification_at approved 0)
               < block_timestamp (mkEnv 2 40000000)) by (vm_compute; reflexivity).
  assert (H3 : later approved reapproved).
  { etrans; [apply later_approved_deactivated |].
    apply later_deactivated_reapproved. }
  split; [exact H1 |]. split; [exact H2 |]. split; [exact H3 |].
  exact (proj1 (expired_stays_expired (mkEnv 2 40000000) 0 approved reapproved
                  H1 H2 H3)).
Defined.

(** ** Writing and reading back *)

(** X11: after a successful submission the new request is pending, the
    submitter's request list is the old list followed by the new ID, and in
    every later state [getRequestInfo] on that ID, called by the submitter
    or the authority, returns the submitter, the submission time and the
    document hash that were submitted. *)
Theorem request_info_round_trip (e : env) (lvl months : Z) (doc : string)
    (s s1 : state) :
  execute (RequestIncomeVerification lvl months doc) e s = (Done RNone, s1) ->
  isPending (request_at s1 (requestCounter s)) = true /\
  (forall e', msg_sender e' = msg_sender e ->
     execute (GetUserRequests (msg_sender e)) e' s1 =
     (Done (RUints (user_requests_at s (msg_sender e) ++ [requestCounter s])), s1)) /\
  (forall s2 e',
     later s1 s2 ->
     msg_sender e' = msg_sender e \/ msg_sender e' = verificationAuthority s2 ->
     execute (GetRequestInfo (requestCounter s)) e' s2 =
     (Done (RRequestInfo
              (mkRequestInfo (msg_sender e)
                 (isPending (request_at s2 (requestCounter s)))
                 (block_timestamp e) doc)), s2)).
Proof.
  intros Hok. apply success_changes in Hok; [| done].
  inversion Hok as [? ? ? Hl Hm Hd Hrc | | | |]; subst.
  assert (Hnew : request_at (after_request e lvl months doc s) (requestCounter s)
                 = mkVerificationRequest (msg_sender e) (euint8_of lvl)
                     (euint8_of months) true (block_timestamp e) doc).
  { unfold request_at; simpl. by rewrite lookup_insert_eq. }
  split; [by rewrite Hnew |]. split.
  - intros e' He'. unfold_contract; simpl.
    rewrite (bool_decide_eq_true_2 _ (eq_sym He')). simpl.
    unfold user_requests_at at 1; simpl. by rewrite lookup_insert_eq.
  - intros s2 e' Hlater Hwho.
    destruct (requests_kept_later _ _ Hlater) as [Hc Hk].
    destruct (Hk (requestCounter s)) as [Hid _]; [simpl; lia |].
    unfold request_identity in Hid. rewrite Hnew in Hid.
    unfold set_isPending in Hid. simpl in Hid, Hc.
    injection Hid as H1 H2 H3 H4 H5.
    rewrite getRequestInfo_run.
    assert ((requestCounter s <? requestCounter s2) = true) as -> by lia.
    rewrite H1, H4, H5.
    assert (bool_decide (msg_sender e = msg_sender e')
            || bool_decide (msg_sender e' = verificationAuthority s2) = true) as ->.
    { destruct Hwho as [Ho|Ha].
      - by rewrite (bool_decide_eq_true_2 _ (eq_sym Ho)).
      - rewrite (bool_decide_eq_true_2 _ Ha). apply orb_true_r. }
    reflexivity.
Qed.

(** X11 on the sample history: request 0 read back after both approvals. *)
Lemma request_info_round_trip_witness :
  execute (RequestIncomeVerification 5 48 "QmDoc") (mkEnv 2 2000) deployed =
    (Done RNone, submitted) /\
  later submitted reapproved /\
  execute (GetRequestInfo (requestCounter deployed)) (mkEnv 2 9000) reapproved =
    (Done (RRequestInfo
             (mkRequestInfo 2 (isPending (request_at reapproved
                                            (requestCounter deployed)))
                2000 "QmDoc")), reapproved).
Proof.
  assert (H1 : execute (RequestIncomeVerification 5 48 "QmDoc") (mkEnv 2 2000)
                 deployed = (Done RNone, submitted)) by (vm_compute; reflexivity).
  assert (H2 : later submitted reapproved).
  { etrans; [apply later_submitted_approved |].
    etrans; [apply later_approved_deactivated |].
    apply later_deactivated_reapproved. }
  split; [exact H1 |]. split; [exact H2 |].
  destruct (request_info_round_trip (mkEnv 2 2000) 5 48 "QmDoc" deployed
              submitted H1) as (_ & _ & Hinfo).
  exact (Hinfo reapproved (mkEnv 2 9000) H2 (or_introl eq_refl)).
Defined.

(** X12: after a successful approval the new record holds the request's
    handles and requester and the given employer hash, and the ID is
    appended to the requester's record list.  For the requester or the
    authority, up to and including 31536000 seconds after the approval
    [getVerificationInfo] returns the record and [isVerificationValid]
    answers true; one second later the first reverts with "Verification
    expired" and the second answers false. *)
Theorem approval_round_trip (e e' : env) (id : Z) (h : string) (s s1 : state) :
  execute (ProcessVerificationRequest id h true) e s = (Done RNone, s1) ->
  msg_sender e' = requester (request_at s id) \/
  msg_sender e' = verificationAuthority s1 ->
  verification_at s1 (verificationCount s) =
    mkIncomeVerification (claimedIncomeLevel (request_at s id))
      (employmentDuration (request_at s id)) true true (block_timestamp e)
      (block_timestamp e + 31536000) h (requester (request_at s id)) /\
  user_verifications_at s1 (requester (request_at s id)) =
    user_verifications_at s (requester (request_at s id)) ++ [verificationCount s] /\
  (block_timestamp e' <= block_timestamp e + 31536000 ->
   execute (GetVerificationInfo (verificationCount s)) e' s1 =
     (Done (RVerificationInfo
              (mkVerificationInfo true true (block_timestamp e)
                 (block_timestamp e + 31536000) h (requester (request_at s id)))),
      s1) /\
   execute (IsVerificationValid (verificationCount s)) e' s1 =
     (Done (RBool true), s1)) /\
  (block_timestamp e + 31536000 < block_timestamp e' ->
   execute (GetVerificationInfo (verificationCount s)) e' s1 =
     (Revert (Error "Verification expired"), s1) /\
   execute (IsVerificationValid (verificationCount s)) e' s1 =
     (Done (RBool false), s1)).
Proof.
  intros Hok Hwho. apply success_changes in Hok; [| done].
  inversion Hok as [| | ? ? Hauth Hlt Hpend Hh Hts Hvc | |]; subst.
  assert (Hnew : verification_at (after_approve e id h s) (verificationCount s)
                 = approved_record_of e id h s).
  { unfold verification_at; simpl. by rewrite lookup_insert_eq. }
  split; [exact Hnew |]. split.
  { unfold user_verifications_at at 1; simpl. by rewrite lookup_insert_eq. }
  split.
  - intros Hin. split.
    + rewrite getVerificationInfo_run; [by rewrite Hnew | |].
      * unfold validVerification_holds. rewrite Hnew. simpl.
        unfold VERIFICATION_VALIDITY_PERIOD, days. repeat split; (lia || done).
      * rewrite Hnew. simpl. destruct Hwho; auto.
    + unfold execute, body, external_call, fmap, M_fmap.
      rewrite isVerificationValid_run, Hnew. simpl.
      assert ((verificationCount s + 1 <=? verificationCount s) = false)
        as -> by lia.
      assert ((block_timestamp e' <=? block_timestamp e + VERIFICATION_VALIDITY_PERIOD)
              = true) as ->
        by (unfold VERIFICATION_VALIDITY_PERIOD, days; lia).
      reflexivity.
  - intros Hout. split.
    + unfold execute, body, getVerificationInfo, external_call, fmap, M_fmap.
      rewrite gated_run, Hnew. simpl.
      assert ((verificationCount s <? verificationCount s + 1) = true)
        as -> by lia.
      assert ((block_timestamp e' <=? block_timestamp e + VERIFICATION_VALIDITY_PERIOD)
              = false) as ->
        by (unfold VERIFICATION_VALIDITY_PERIOD, days; lia).
      reflexivity.
    + unfold execute, body, external_call, fmap, M_fmap.
      rewrite isVerificationValid_run, Hnew. simpl.
      assert ((verificationCount s + 1 <=? verificationCount s) = false)
        as -> by lia.
      assert ((block_timestamp e' <=? block_timestamp e + VERIFICATION_VALIDITY_PERIOD)
              = false) as ->
        by (unfold VERIFICATION_VALIDITY_PERIOD, days; lia).
      reflexivity.
Qed.

(** X12 on the sample history: record 0 queried by its owner at time 4000. *)
Lemma approval_round_trip_witness :
  execute (ProcessVerificationRequest 0 "employerHashX" true) (mkEnv 1 3000)
    submitted = (Done RNone, approved) /\
  msg_sender (mkEnv 2 4000) = requester (request_at submitted 0) /\
  block_timestamp (mkEnv 2 4000) <= block_timestamp (mkEnv 1 3000) + 31536000 /\
  execute (IsVerificationValid (verificationCount submitted)) (mkEnv 2 4000)
    approved = (Done (RBool true), approved).
Proof.
  assert (H1 : execute (ProcessVerificationRequest 0 "employerHashX" true)
                 (mkEnv 1 3000) submitted = (Done RNone, approved))
    by (vm_compute; reflexivity).
  assert (H2 : msg_sender (mkEnv 2 4000) = requester (request_at submitted 0))
    by (vm_compute; reflexivity).
  assert (H3 : block_timestamp (mkEnv 2 4000)
               <= block_timestamp (mkEnv 1 3000) + 31536000)
    by (vm_compute; discriminate).
  split; [exact H1 |]. split; [exact H2 |]. split; [exact H3 |].
  destruct (approval_round_trip (mkEnv 1 3000) (mkEnv 2 4000) 0 "employerHashX"
              submitted approved H1 (or_introl H2)) as (_ & _ & Hin & _).
  exact (proj2 (Hin H3)).
Defined.

Lemma retired_blocks {A} (e : env) (id : Z) (s : state) (k : M A) :
  retired id s ->
  (validVerification e id;; k) s = (Revert (Error "Verification not active"), s).
Proof.
  intros [Hlt Hoff]. rewrite gated_run, Hoff.
  by assert ((id <? verificationCount s) = true) as -> by lia.
Qed.

(** X13: after a successful [deactivateVerification], in every later
    state and for every caller and time, [isVerificationValid] answers false
    and [getVerificationInfo], [verifyIncomeThreshold], [compareIncomes]
    with the record as first argument and a further
    [deactivateVerification] revert with "Verification not active". *)
Theorem deactivated_stays_closed (e e' : env) (id id2 lvl : Z) (s s1 s2 : state) :
  execute (DeactivateVerification id) e s = (Done RNone, s1) ->
  later s1 s2 ->
  execute (IsVerificationValid id) e' s2 = (Done (RBool false), s2) /\
  forall c,
    c = GetVerificationInfo id \/ c = VerifyIncomeThreshold id lvl \/
    c = CompareIncomes id id2 \/ c = DeactivateVerification id ->
    execute c e' s2 = (Revert (Error "Verification not active"), s2).
Proof.
  intros Hok Hlater. apply success_changes in Hok; [| done].
  inversion Hok as [| | | ? (Hlt & Hact & Hexp) Hwho |]; subst.
  assert (Hret : retired id s2).
  { apply (retired_later id (after_deactivate id s)); [done |].
    split; [done |]. unfold verification_at; simpl.
    by rewrite lookup_insert_eq. }
  split.
  - unfold execute, body, external_call, fmap, M_fmap.
    rewrite isVerificationValid_run. destruct Hret as [Hlt2 Hoff].
    rewrite Hoff. by destruct (verificationCount s2 <=? id).
  - intros c [-> | [-> | [-> | ->]]];
      unfold execute, body, getVerificationInfo, verifyIncomeThreshold,
        compareIncomes, deactivateVerification, external_call, fmap, M_fmap;
      try (rewrite (retired_blocks e' id s2 _ Hret); reflexivity).
    unfold mbind at 1, M_bind at 1.
    rewrite (retired_blocks e' id s2 _ Hret); reflexivity.
Qed.

(** X13 on the sample history: the authority reads record 0 after the
    second approval. *)
Lemma deactivated_stays_closed_witness :
  execute (DeactivateVerification 0) (mkEnv 2 5000) approved =
    (Done RNone, deactivated) /\
  later deactivated reapproved /\
  execute (GetVerificationInfo 0) (mkEnv 1 9000) reapproved =
    (Revert (Error "Verification not active"), reapproved).
Proof.
  assert (H1 : execute (DeactivateVerification 0) (mkEnv 2 5000) approved =
               (Done RNone, deactivated)) by (vm_compute; reflexivity).
  pose proof later_deactivated_reapproved as H2.
  split; [exact H1 |]. split; [exact H2 |].
  destruct (deactivated_stays_closed (mkEnv 2 5000) (mkEnv 1 9000) 0 1 10
              approved deactivated reapproved H1 H2) as [_ Hclosed].
  exact (Hclosed (GetVerificationInfo 0) (or_introl eq_refl)).
Defined.

(** X14: [compareIncomes] returns true exactly when both records pass
    [validVerification] and the caller owns one of them or is the
    authority; it never returns false and never changes the state. *)
Theorem compareIncomes_outcome (e : env) (id1 id2 : Z) (s : state) :
  (fst (execute (CompareIncomes id1 id2) e s) = Done (RBool true) <->
   validVerification_holds e id1 s /\ validVerification_holds e id2 s /\
   (verifiedUser (verification_at s id1) = msg_sender e \/
    verifiedUser (verification_at s id2) = msg_sender e \/
    msg_sender e = verificationAuthority s)) /\
  fst (execute (CompareIncomes id1 id2) e s) <> Done (RBool false) /\
  snd (execute (CompareIncomes id1 id2) e s) = s.
Proof.
  unfold execute, body, compareIncomes, external_call, fmap, M_fmap.
  rewrite gated_run.
  unfold validVerification_holds.
  destruct (Z.ltb_spec id1 (verificationCount s)) as [Hlt1|Hge1];
    [| simpl; repeat split; try done; intros (H & _); lia].
  destruct (isActive (verification_at s id1)) eqn:Hact1;
    [| simpl; repeat split; try done; intros ((_ & H & _) & _); done].
  destruct (Z.leb_spec (block_timestamp e) (expiryTime (verification_at s id1)))
    as [Hle1|Hgt1];
    [| simpl; repeat split; try done; intros ((_ & _ & H) & _); lia].
  rewrite gated_run.
  destruct (Z.ltb_spec id2 (verificationCount s)) as [Hlt2|Hge2];
    [| simpl; repeat split; try done; intros (_ & (H & _) & _); lia].
  destruct (isActive (verification_at s id2)) eqn:Hact2;
    [| simpl; repeat split; try done; intros (_ & (_ & H & _) & _); done].
  destruct (Z.leb_spec (block_timestamp e) (expiryTime (verification_at s id2)))
    as [Hle2|Hgt2];
    [| simpl; repeat split; try done; intros (_ & (_ & _ & H) & _); lia].
  unfold mbind, M_bind, read, require, mret, M_ret.
  destruct (bool_decide (verifiedUser (verification_at s id1) = msg_sender e))
    eqn:H1;
  destruct (bool_decide (verifiedUser (verification_at s id2) = msg_sender e))
    eqn:H2;
  destruct (bool_decide (msg_sender e = verificationAuthority s)) eqn:H3;
    simpl; repeat split; try done; try lia;
    try (apply bool_decide_eq_true_1 in H1);
    try (apply bool_decide_eq_true_1 in H2);
    try (apply bool_decide_eq_true_1 in H3); auto.
  apply bool_decide_eq_false_1 in H1, H2, H3.
  intros (_ & _ & [?|[?|?]]); done.
Qed.

(** X14 on the sample history: account 2 compares its record 1 with
    itself. *)
Lemma compareIncomes_outcome_witness :
  validVerification_holds (mkEnv 2 9000) 1 reapproved /\
  verifiedUser (verification_at reapproved 1) = msg_sender (mkEnv 2 9000) /\
  fst (execute (CompareIncomes 1 1) (mkEnv 2 9000) reapproved) = Done (RBool true).
Proof.
  assert (H1 : validVerification_holds (mkEnv 2 9000) 1 reapproved).
  { repeat split; vm_compute; (reflexivity || discriminate). }
  assert (H2 : verifiedUser (verification_at reapproved 1) = msg_sender (mkEnv 2 9000))
    by (vm_compute; reflexivity).
  split; [exact H1 |]. split; [exact H2 |].
  destruct (compareIncomes_outcome (mkEnv 2 9000) 1 1 reapproved) as [Hiff _].
  exact (proj2 Hiff (conj H1 (conj H1 (or_introl H2)))).
Defined.

(** X15: a successful call appends to the log exactly the events of
    [emitted]: one [VerificationRequested] for a submission, a
    [ThresholdVerification] and an [IncomeVerified], both flagged true, for
    an approval, one [VerificationExpired] for a deactivation, and nothing
    for a rejection, a change of authority or a query.  A failed call
    appends nothing. *)
Theorem events_of_call (c : call) (e : env) (s s' : state) :
  (forall r, execute c e s = (Done r, s') ->
     events s' = events s ++ emitted c e s) /\
  (forall f, execute c e s = (Revert f, s') -> events s' = events s).
Proof.
  split.
  - intros r Hok.
    assert (Hcases : writes c \/ (emitted c e s = [] /\ ~ writes c))
      by (destruct c; simpl; tauto).
    destruct Hcases as [Hw | [Hnone Hview]].
    + apply success_changes in Hok; [| done].
      destruct Hok; simpl; rewrite <- ?app_assoc, ?app_nil_r; done.
    + rewrite Hnone, app_nil_r.
      destruct (execute_changes c e s) as [Hs | Hch]; rewrite Hok in *; simpl in *.
      * by subst.
      * destruct Hch; simpl in Hview; tauto.
  - intros f Hf. pose proof (external_call_revert (body c e) s f) as Hsame.
    unfold execute in Hf. rewrite Hf in Hsame. simpl in Hsame.
    by rewrite Hsame.
Qed.

(** X15 on the sample history: rejecting request 0 logs nothing. *)
Lemma events_of_call_witness :
  execute (ProcessVerificationRequest 0 "employerHashX" false) (mkEnv 1 3000)
    submitted = (Done RNone, rejected) /\
  events rejected =
    events submitted
    ++ emitted (ProcessVerificationRequest 0 "employerHashX" false)
         (mkEnv 1 3000) submitted.
Proof.
  assert (H1 : execute (ProcessVerificationRequest 0 "employerHashX" false)
                 (mkEnv 1 3000) submitted = (Done RNone, rejected))
    by (vm_compute; reflexivity).
  split; [exact H1 |].
  exact (proj1 (events_of_call _ _ _ _) RNone H1).
Defined.

(** ** Counting over an ID range, and per-user lists *)

Section Counting.

Context (P Q : Z -> Prop) `{!forall x, Decision (P x), !forall x, Decision (Q x)}.

Lemma filter_agree (l : list Z) :
  (forall x, x ∈ l -> (P x <-> Q x)) -> filter P l = filter Q l.
Proof.
  induction l as [|a l IH]; intros Hl; [done |].
  assert (Hrest : filter P l = filter Q l).
  { apply IH. intros x Hx. apply Hl. by right. }
  destruct (decide (P a)) as [Ha|Ha].
  - rewrite !filter_cons_True; [by rewrite Hrest | | done].
    apply Hl; [left | done].
  - rewrite !filter_cons_False; [done | | done].
    intros Hq. apply Ha, Hl; [left | done].
Qed.

Lemma seqZ_one (m : Z) : seqZ m 1 = [m].
Proof. rewrite seqZ_cons by lia. by rewrite seqZ_nil by lia. Qed.

Lemma seqZ_split (n id : Z) :
  0 <= id < n ->
  seqZ 0 n = seqZ 0 id ++ id :: seqZ (id + 1) (n - id - 1).
Proof.
  intros Hid. replace n with (id + (1 + (n - id - 1))) at 1 by lia.
  rewrite seqZ_app by lia. f_equal. rewrite seqZ_app by lia.
  by rewrite seqZ_one, !Z.add_0_l.
Qed.

Lemma filter_seqZ_grow (n : Z) :
  0 <= n -> Q n -> (forall i, i < n -> (P i <-> Q i)) ->
  filter Q (seqZ 0 (n + 1)) = filter P (seqZ 0 n) ++ [n].
Proof.
  intros Hn Hq Hsame. rewrite seqZ_app by lia. rewrite filter_app.
  rewrite (filter_agree (seqZ 0 n)).
  - f_equal. rewrite Z.add_0_l, seqZ_one. by rewrite filter_cons_True.
  - intros x Hx. apply elem_of_seqZ in Hx. apply Hsame. lia.
Qed.

Lemma filter_seqZ_drop (n id : Z) :
  0 <= id < n -> P id -> ~ Q id -> (forall i, i <> id -> (P i <-> Q i)) ->
  length (filter P (seqZ 0 n)) = S (length (filter Q (seqZ 0 n))).
Proof.
  intros Hid Hp Hq Hsame. rewrite (seqZ_split n id Hid).
  rewrite !filter_app, !length_app.
  rewrite filter_cons_True by done. rewrite (filter_cons_False Q) by done.
  rewrite (filter_agree (seqZ 0 id)), (filter_agree (seqZ (id + 1) (n - id - 1))).
  - simpl. lia.
  - intros x Hx. apply elem_of_seqZ in Hx. apply Hsame. lia.
  - intros x Hx. apply elem_of_seqZ in Hx. apply Hsame. lia.
Qed.

Lemma filter_seqZ_bound (n : Z) :
  0 <= n -> Z.of_nat (length (filter P (seqZ 0 n))) <= n.
Proof.
  intros Hn. pose proof (length_filter P (seqZ 0 n)) as Hle.
  rewrite length_seqZ in Hle. lia.
Qed.

End Counting.

Section Index.

Context {V : Type} (owner : V -> address) (zero : V).

Lemma index_grows (m : gmap Z V) (idx : gmap Z (list Z)) (n : Z) (v : V) :
  0 <= n -> index_sound owner zero m idx n ->
  index_sound owner zero (<[n := v]> m)
    (<[owner v := default [] (idx !! owner v) ++ [n]]> idx) (n + 1).
Proof.
  intros Hn Hidx u id. destruct (decide (owner v = u)) as [<-|Hu].
  - rewrite lookup_insert_eq. simpl. rewrite elem_of_app, list_elem_of_singleton.
    rewrite (Hidx (owner v) id). destruct (decide (id = n)) as [->|Hid].
    + rewrite lookup_insert_eq. simpl. split; [intros _; split; [lia | done] | auto].
    + rewrite lookup_insert_ne by done. split.
      * intros [[? ?] | ?]; [split; [lia | done] | done].
      * intros [? ?]. left. split; [lia | done].
  - rewrite lookup_insert_ne by done. rewrite (Hidx u id).
    destruct (decide (id = n)) as [->|Hid].
    + rewrite lookup_insert_eq. simpl. split; [intros [? ?]; lia | intros [_ ?]; done].
    + rewrite lookup_insert_ne by done. split; intros [? ?]; (split; [lia | done]).
Qed.

Lemma index_kept (m : gmap Z V) (idx : gmap Z (list Z)) (n id : Z) (v : V) :
  owner v = owner (default zero (m !! id)) ->
  index_sound owner zero m idx n -> index_sound owner zero (<[id := v]> m) idx n.
Proof.
  intros Hv Hidx u j. rewrite (Hidx u j).
  destruct (decide (j = id)) as [->|Hj].
  - rewrite lookup_insert_eq. simpl. by rewrite Hv.
  - by rewrite lookup_insert_ne.
Qed.

End Index.

Lemma ascending_snoc (l : list Z) (n : Z) :
  StronglySorted Z.lt l -> (forall x, x ∈ l -> x < n) ->
  StronglySorted Z.lt (l ++ [n]).
Proof.
  induction 1 as [|a l Hs IH Hall]; intros Hlt; simpl.
  - repeat constructor.
  - constructor.
    + apply IH. intros x Hx. apply Hlt. by right.
    + apply Forall_app. split; [done |].
      constructor; [| constructor]. apply Hlt. left.
Qed.

(** ** States of a deployed registry *)

Lemma pending_is_allocated (s : state) (id : Z) :
  isPending (request_at s id) = true -> is_Some (verificationRequests s !! id).
Proof.
  unfold request_at. destruct (verificationRequests s !! id); [eauto | done].
Qed.

Lemma active_is_allocated (s : state) (id : Z) :
  isActive (verification_at s id) = true -> is_Some (verifications s !! id).
Proof.
  unfold verification_at. destruct (verifications s !! id); [eauto | done].
Qed.

Lemma insert_keeps_range {V} (m : gmap Z V) (n id : Z) (v : V) :
  (forall j, is_Some (m !! j) <-> 0 <= j < n) -> 0 <= id < n ->
  forall j, is_Some (<[id := v]> m !! j) <-> 0 <= j < n.
Proof.
  intros Hm Hid j. rewrite lookup_insert_is_Some, Hm.
  destruct (decide (id = j)); [subst; tauto | tauto].
Qed.

Lemma insert_extends_range {V} (m : gmap Z V) (n : Z) (v : V) :
  0 <= n -> (forall j, is_Some (m !! j) <-> 0 <= j < n) ->
  forall j, is_Some (<[n := v]> m !! j) <-> 0 <= j < n + 1.
Proof.
  intros Hn Hm j. rewrite lookup_insert_is_Some, Hm.
  destruct (decide (n = j)); [subst; split; [lia | tauto] |].
  split; [intros [? | [_ ?]]; [done | lia] | intros ?; right; split; [done | lia]].
Qed.

Lemma allocated_step (e : env) (s : state) (c : call) (s' : state) :
  allocated s -> changes e s c s' -> allocated s'.
Proof.
  intros (Hrc & Hvc & Hreq & Hrec) Hch. unfold allocated.
  destruct Hch as [lvl months doc Hl Hm Hd Hmax | id h Hauth Hlt Hpend Hh
                  | id h Hauth Hlt Hpend Hh Hts Hmax | id (Hlt & Hact & Hexp) Hwho
                  | a Hauth Ha]; simpl.
  - split; [lia |]. split; [lia |]. split; [| done].
    by apply insert_extends_range.
  - apply pending_is_allocated, Hreq in Hpend.
    split; [lia |]. split; [lia |]. split; [| done].
    by apply insert_keeps_range.
  - apply pending_is_allocated, Hreq in Hpend.
    split; [lia |]. split; [lia |]. split.
    + by apply insert_keeps_range.
    + by apply insert_extends_range.
  - apply active_is_allocated, Hrec in Hact.
    split; [lia |]. split; [lia |]. split; [done |].
    by apply insert_keeps_range.
  - done.
Qed.

Lemma stems_from_kept (s s' : state) (v : IncomeVerification) (rid : Z) :
  requests_kept s s' -> stems_from s v rid -> stems_from s' v rid.
Proof.
  intros [Hc Hk] (Hrid & Hdone & Hu & Hi & Hm).
  destruct (Hk rid ltac:(lia)) as [Hid Hp].
  unfold request_identity, set_isPending in Hid.
  injection Hid as H1 H2 H3 H4 H5.
  unfold stems_from. rewrite H1, H2, H3.
  repeat split; try lia; try done.
  destruct (isPending (request_at s' rid)); [| done].
  rewrite Hp in Hdone; done.
Qed.

Lemma records_sound_step (e : env) (s : state) (c : call) (s' : state) :
  allocated s -> records_sound s -> changes e s c s' -> records_sound s'.
Proof.
  intros (Hrc & Hvc & Hreq & Hrec) Hsound Hch.
  pose proof (requests_kept_step e s c s' Hch) as Hkept.
  assert (Hold : forall id v, verifications s !! id = Some v ->
            isVerified v = true /\ expiryTime v = verificationTime v + 31536000 /\
            employerHash v <> "" /\ exists rid, stems_from s' v rid).
  { intros id v Hv. destruct (Hsound id v Hv) as (? & ? & ? & rid & Hst).
    repeat split; try done. exists rid. by apply (stems_from_kept s). }
  clear Hsound. unfold records_sound.
  destruct Hch as [lvl months doc Hl Hm Hd Hmax | id h Hauth Hlt Hpend Hh
                  | id h Hauth Hlt Hpend Hh Hts Hmax | id (Hlt & Hact & Hexp) Hwho
                  | a Hauth Ha]; simpl; try exact Hold.
  - intros j v. rewrite lookup_insert. case_decide; [| apply Hold].
    intros [= <-]. simpl. repeat split; try done. exists id.
    apply pending_is_allocated, Hreq in Hpend.
    unfold stems_from, request_at; simpl. rewrite lookup_insert_eq. simpl.
    repeat split; (lia || done).
  - intros j v. rewrite lookup_insert. case_decide; [| apply Hold].
    intros [= <-]. subst j.
    destruct (active_is_allocated s id Hact) as [v0 Hv0].
    unfold verification_at. rewrite Hv0. simpl.
    destruct (Hold id v0 Hv0) as (? & ? & ? & rid & Hst).
    repeat split; try done. by exists rid.
Qed.

Lemma indexes_sound_step (e : env) (s : state) (c : call) (s' : state) :
  allocated s -> indexes_sound s -> changes e s c s' -> indexes_sound s'.
Proof.
  intros (Hrc & Hvc & Hreq & Hrec) [Hir Hiv] Hch.
  change (index_sound requester zero_request (verificationRequests s)
            (userRequests s) (requestCounter s)) in Hir.
  change (index_sound verifiedUser zero_verification (verifications s)
            (userVerifications s) (verificationCount s)) in Hiv.
  unfold indexes_sound.
  change (index_sound requester zero_request (verificationRequests s')
            (userRequests s') (requestCounter s') /\
          index_sound verifiedUser zero_verification (verifications s')
            (userVerifications s') (verificationCount s')).
  destruct Hch as [lvl months doc Hl Hm Hd Hmax | id h Hauth Hlt Hpend Hh
                  | id h Hauth Hlt Hpend Hh Hts Hmax | id (Hlt & Hact & Hexp) Hwho
                  | a Hauth Ha]; simpl; (split; [| try done]); try done.
  - apply (index_grows requester zero_request _ _ _
             (mkVerificationRequest (msg_sender e) _ _ _ _ _)); done.
  - by apply index_kept.
  - by apply index_kept.
  - apply (index_grows verifiedUser zero_verification _ _ _
             (approved_record_of e id h s)); done.
  - by apply index_kept.
Qed.

Lemma pending_in_range (s : state) (id : Z) :
  allocated s -> isPending (request_at s id) = true -> 0 <= id < requestCounter s.
Proof.
  intros (_ & _ & Hreq & _) Hp. by apply Hreq, pending_is_allocated.
Qed.

Lemma active_in_range (s : state) (id : Z) :
  allocated s -> isActive (verification_at s id) = true ->
  0 <= id < verificationCount s.
Proof.
  intros (_ & _ & _ & Hrec) Hp. by apply Hrec, active_is_allocated.
Qed.

Lemma pending_ids_step (e : env) (s : state) (c : call) (s' : state) :
  allocated s -> changes e s c s' ->
  Z.of_nat (length (pending_ids s')) =
  Z.of_nat (length (pending_ids s)) + pending_delta c.
Proof.
  intros Hal Hch. pose proof Hal as (Hrc & _).
  destruct Hch as [lvl months doc Hl Hm Hd Hmax | id h Hauth Hlt Hpend Hh
                  | id h Hauth Hlt Hpend Hh Hts Hmax | id (Hlt & Hact & Hexp) Hwho
                  | a Hauth Ha]; simpl.
  - unfold pending_ids; simpl.
    rewrite (filter_seqZ_grow
               (fun i => isPending (request_at s i) = true) _ (requestCounter s));
      [rewrite length_app; simpl; lia | done | |].
    + unfold request_at; simpl. by rewrite lookup_insert_eq.
    + intros i Hi. unfold request_at at 2; simpl.
      by rewrite lookup_insert_ne by lia.
  - pose proof (pending_in_range s id Hal Hpend) as Hid.
    unfold pending_ids; simpl.
    rewrite (filter_seqZ_drop (fun i => isPending (request_at s i) = true)
               (fun i => isPending (request_at (after_reject id s) i) = true)
               (requestCounter s) id); [lia | done | done | |].
    + unfold request_at; simpl. by rewrite lookup_insert_eq.
    + intros i Hi. unfold request_at at 2; simpl.
      by rewrite lookup_insert_ne by done.
  - pose proof (pending_in_range s id Hal Hpend) as Hid.
    unfold pending_ids; simpl.
    rewrite (filter_seqZ_drop (fun i => isPending (request_at s i) = true)
               (fun i => isPending (request_at (after_approve e id h s) i) = true)
               (requestCounter s) id); [lia | done | done | |].
    + unfold request_at; simpl. by rewrite lookup_insert_eq.
    + intros i Hi. unfold request_at at 2; simpl.
      by rewrite lookup_insert_ne by done.
  - by rewrite Z.add_0_r.
  - by rewrite Z.add_0_r.
Qed.

Lemma requests_cover_records_step (e : env) (s : state) (c : call) (s' : state) :
  allocated s -> requests_cover_records s -> changes e s c s' ->
  requests_cover_records s'.
Proof.
  intros Hal Hcov Hch. unfold requests_cover_records in *.
  rewrite (pending_ids_step e s c s' Hal Hch).
  destruct Hch; simpl; lia.
Qed.

Lemma empty_range {V} (id : Z) :
  is_Some ((∅ : gmap Z V) !! id) <-> 0 <= id < 0.
Proof. rewrite lookup_empty. split; [by intros [x Hx] | lia]. Qed.

Lemma empty_index {V} (owner : V -> address) (zero : V) :
  index_sound owner zero ∅ ∅ 0.
Proof.
  intros u id. rewrite lookup_empty. simpl. split.
  - by intros ?%elem_of_nil.
  - intros [? _]. lia.
Qed.

Lemma well_formed_constructor (e0 : env) : well_formed (constructor e0).
Proof.
  split; [| split; [| split]].
  - unfold allocated; simpl. split; [lia |]. split; [lia |].
    split; apply empty_range.
  - intros id v. simpl. by rewrite lookup_empty.
  - split.
    + apply (empty_index requester zero_request).
    + apply (empty_index verifiedUser zero_verification).
  - unfold requests_cover_records. simpl. lia.
Qed.

Lemma well_formed_later (s s' : state) :
  later s s' -> well_formed s -> well_formed s'.
Proof.
  apply (later_invariant well_formed).
  intros e s0 c s0' (Hal & Hrec & Hidx & Hcov) Hch.
  split; [| split; [| split]].
  - by apply (allocated_step e s0 c).
  - by apply (records_sound_step e s0 c).
  - by apply (indexes_sound_step e s0 c).
  - by apply (requests_cover_records_step e s0 c).
Qed.

Lemma reachable_well_formed (s : state) : reachable s -> well_formed s.
Proof.
  intros [e0 Hlater]. apply (well_formed_later _ _ Hlater).
  apply well_formed_constructor.
Qed.

Lemma lists_ascending_step (e : env) (s : state) (c : call) (s' : state) :
  indexes_sound s -> lists_ascending s -> changes e s c s' -> lists_ascending s'.
Proof.
  intros [Hir Hiv] Hasc Hch.
  destruct Hch as [lvl months doc Hl Hm Hd Hmax | id h Hauth Hlt Hpend Hh
                  | id h Hauth Hlt Hpend Hh Hts Hmax | id Hvalid Hwho
                  | a Hauth Ha]; try exact Hasc.
  - intros u. split; [| apply Hasc].
    unfold user_requests_at at 1; simpl. rewrite lookup_insert.
    case_decide; [| apply Hasc]. simpl. subst u.
    apply ascending_snoc; [apply Hasc |].
    intros x Hx. apply Hir in Hx. lia.
  - intros u. split; [apply Hasc |].
    unfold user_verifications_at at 1; simpl. rewrite lookup_insert.
    case_decide; [| apply Hasc]. simpl. subst u.
    apply ascending_snoc; [apply Hasc |].
    intros x Hx. apply Hiv in Hx. lia.
Qed.

Lemma reachable_ascending (s : state) : reachable s -> lists_ascending s.
Proof.
  intros [e0 Hlater].
  assert (H : well_formed s /\ lists_ascending s); [| by destruct H].
  apply (later_invariant (fun s => well_formed s /\ lists_ascending s))
    with (s := constructor e0); [| done |].
  - intros e s0 c s0' [Hwf Hasc] Hch. split.
    + apply (well_formed_later s0); [| done].
      apply rtc_once. exists c, e. by rewrite (changes_execute c e s0 s0').
    + destruct Hwf as (_ & _ & Hidx & _).
      by apply (lists_ascending_step e s0 c).
  - split; [apply well_formed_constructor |].
    intros u. unfold user_requests_at, user_verifications_at; simpl.
    rewrite !lookup_empty. simpl. split; constructor.
Qed.

Lemma active_ids_step (e : env) (s : state) (c : call) (s' : state) :
  allocated s -> records_sound s -> changes e s c s' ->
  Z.of_nat (length (active_ids e s')) =
  Z.of_nat (length (active_ids e s)) + active_delta c.
Proof.
  intros Hal Hsound Hch. pose proof Hal as (_ & Hvc & _).
  destruct Hch as [lvl months doc Hl Hm Hd Hmax | id h Hauth Hlt Hpend Hh
                  | id h Hauth Hlt Hpend Hh Hts Hmax | id (Hlt & Hact & Hexp) Hwho
                  | a Hauth Ha]; simpl.
  - by rewrite Z.add_0_r.
  - by rewrite Z.add_0_r.
  - unfold active_ids; simpl.
    rewrite (filter_seqZ_grow
               (fun i => isActive (verification_at s i)
                         && isVerified (verification_at s i)
                         && (block_timestamp e <=? expiryTime (verification_at s i))
                         = true) _ (verificationCount s));
      [rewrite length_app; simpl; lia | done | |].
    + unfold verification_at; simpl. rewrite lookup_insert_eq. simpl.
      unfold VERIFICATION_VALIDITY_PERIOD, days. lia.
    + intros i Hi. unfold verification_at at 4 5 6; simpl.
      by rewrite lookup_insert_ne by lia.
  - pose proof (active_in_range s id Hal Hact) as Hid.
    destruct (active_is_allocated s id Hact) as [v Hv].
    destruct (Hsound id v Hv) as (Hver & _).
    unfold active_ids; simpl.
    rewrite (filter_seqZ_drop
               (fun i => isActive (verification_at s i)
                         && isVerified (verification_at s i)
                         && (block_timestamp e <=? expiryTime (verification_at s i))
                         = true)
               (fun i => isActive (verification_at (after_deactivate id s) i)
                         && isVerified (verification_at (after_deactivate id s) i)
                         && (block_timestamp e
                             <=? expiryTime (verification_at (after_deactivate id s) i))
                         = true)
               (verificationCount s) id); [lia | done | | |].
    + rewrite Hact. unfold verification_at in *. rewrite Hv in *. simpl in *.
      rewrite Hver. simpl. lia.
    + unfold verification_at; simpl. rewrite lookup_insert_eq. simpl. done.
    + intros i Hi. unfold verification_at at 4 5 6; simpl.
      by rewrite lookup_insert_ne by done.
  - by rewrite Z.add_0_r.
Qed.

Lemma acl_sound_step (e : env) (s : state) (c : call) (s' : state) :
  acl_sound s -> changes e s c s' -> acl_sound s'.
Proof.
  intros Hacl Hch. pose proof (requests_kept_step e s c s' Hch) as [Hc Hk].
  assert (Hold : forall h g, (h, g) ∈ acl s ->
            g = This \/
            exists rid, rid < requestCounter s' /\
              g = Account (requester (request_at s' rid)) /\
              (h = claimedIncomeLevel (request_at s' rid) \/
               h = employmentDuration (request_at s' rid))).
  { intros h g Hin. destruct (Hacl h g Hin) as [-> | (rid & Hrid & -> & Hh)];
      [by left | right].
    destruct (Hk rid Hrid) as [Hid _].
    unfold request_identity, set_isPending in Hid.
    injection Hid as H1 H2 H3 H4 H5.
    exists rid. rewrite H1, H2, H3. split; [lia | done]. }
  clear Hacl. unfold acl_sound.
  destruct Hch as [lvl months doc Hl Hm Hd Hmax | id h Hauth Hlt Hpend Hh
                  | id h Hauth Hlt Hpend Hh Hts Hmax | id Hvalid Hwho
                  | a Hauth Ha]; try exact Hold.
  intros h g. simpl acl. rewrite !elem_of_app, !list_elem_of_singleton.
  assert (Hnew : request_at (after_request e lvl months doc s) (requestCounter s)
                 = mkVerificationRequest (msg_sender e) (euint8_of lvl)
                     (euint8_of months) true (block_timestamp e) doc).
  { unfold request_at; simpl. by rewrite lookup_insert_eq. }
  intros [[[[Hin | Heq] | Heq] | Heq] | Heq]; try (injection Heq as -> ->).
  - by apply Hold.
  - by left.
  - by left.
  - right. exists (requestCounter s). rewrite Hnew. simpl.
    split; [lia |]. split; [done | by left].
  - right. exists (requestCounter s). rewrite Hnew. simpl.
    split; [lia |]. split; [done | by right].
Qed.

Lemma list_query_done (e : env) (u : address) (s : state) (l : list Z) :
  (fst (execute (GetUserRequests u) e s) = Done (RUints l) ->
   l = user_requests_at s u /\
   (u = msg_sender e \/ msg_sender e = verificationAuthority s)) /\
  (fst (execute (GetUserVerifications u) e s) = Done (RUints l) ->
   l = user_verifications_at s u /\
   (u = msg_sender e \/ msg_sender e = verificationAuthority s)).
Proof.
  split; unfold_contract; simpl; intros H; run; simpl in *; simplify_eq;
    (split; [done |]);
    match goal with
    | H : _ || _ = true |- _ =>
        apply orb_prop in H as [H|H]; apply bool_decide_eq_true_1 in H; auto
    end.
Qed.

(** X16: in every state of a deployed registry the modifier
    [validVerification], which does not read [isVerified], passes exactly
    when [isVerificationValid] answers true. *)
Theorem gate_is_validity_when_reachable (e : env) (id : Z) (s : state) :
  reachable s ->
  (validVerification_holds e id s <->
   execute (IsVerificationValid id) e s = (Done (RBool true), s)).
Proof.
  intros Hr. destruct (reachable_well_formed s Hr) as (Hal & Hrec & _).
  unfold execute, body, external_call, fmap, M_fmap.
  rewrite isVerificationValid_run. unfold validVerification_holds. split.
  - intros (Hlt & Hact & Hexp).
    destruct (active_is_allocated s id Hact) as [v Hv].
    destruct (Hrec id v Hv) as (Hver & _).
    unfold verification_at in *. rewrite Hv in *. simpl in *.
    rewrite Hact, Hver.
    assert ((verificationCount s <=? id) = false) as -> by lia.
    by assert ((block_timestamp e <=? expiryTime v) = true) as -> by lia.
  - destruct (Z.leb_spec (verificationCount s) id) as [|Hlt]; [done |].
    intros [= Hb]. apply andb_prop in Hb as [Hb Hexp].
    apply andb_prop in Hb as [Hact _]. repeat split; (done || lia).
Qed.

(** X16 on the sample history: record 0 at time 4000. *)
Lemma gate_is_validity_when_reachable_witness :
  reachable approved /\
  validVerification_holds (mkEnv 3 4000) 0 approved /\
  execute (IsVerificationValid 0) (mkEnv 3 4000) approved =
    (Done (RBool true), approved).
Proof.
  pose proof reachable_approved as H1.
  assert (H2 : validVerification_holds (mkEnv 3 4000) 0 approved).
  { repeat split; vm_compute; (reflexivity || discriminate). }
  split; [exact H1 |]. split; [exact H2 |].
  exact (proj1 (gate_is_validity_when_reachable (mkEnv 3 4000) 0 approved H1) H2).
Defined.

(** X17: in every state of a deployed registry each allocated record is
    verified, expires 31536000 seconds after its verification time, has a
    non-empty employer hash, and was made from a processed request with the
    same requester and the same two handles. *)
Theorem records_of_reachable_state (id : Z) (s : state) :
  reachable s -> 0 <= id < verificationCount s ->
  isVerified (verification_at s id) = true /\
  expiryTime (verification_at s id) = verificationTime (verification_at s id) + 31536000 /\
  employerHash (verification_at s id) <> "" /\
  exists rid,
    0 <= rid < requestCounter s /\
    isPending (request_at s rid) = false /\
    requester (request_at s rid) = verifiedUser (verification_at s id) /\
    claimedIncomeLevel (request_at s rid) =
      encryptedIncomeLevel (verification_at s id) /\
    employmentDuration (request_at s rid) =
      encryptedEmploymentMonths (verification_at s id).
Proof.
  intros Hr Hid.
  destruct (reachable_well_formed s Hr) as ((_ & _ & _ & Hdom) & Hrec & _).
  destruct (proj2 (Hdom id) Hid) as [v Hv].
  unfold verification_at. rewrite Hv. simpl. by apply (Hrec id).
Qed.

(** X17 on the sample history: record 1. *)
Lemma records_of_reachable_state_witness :
  reachable reapproved /\ 0 <= 1 < verificationCount reapproved /\
  isVerified (verification_at reapproved 1) = true /\
  expiryTime (verification_at reapproved 1) =
    verificationTime (verification_at reapproved 1) + 31536000.
Proof.
  pose proof reachable_reapproved as H1.
  assert (H2 : 0 <= 1 < verificationCount reapproved)
    by (split; vm_compute; (reflexivity || discriminate)).
  split; [exact H1 |]. split; [exact H2 |].
  destruct (records_of_reachable_state 1 reapproved H1 H2) as (Hv & Hx & _).
  split; [exact Hv | exact Hx].
Defined.

(** X18: in every state of a deployed registry, an ID at or above
    [verificationCount] makes the four gated calls revert with "Invalid
    verification ID" for every caller, makes [isVerificationValid] answer
    false, and reads as the zero record through the getter; an ID at or
    above [requestCounter] makes [getRequestInfo] revert with "Invalid
    request ID" and reads as the zero request through the getter. *)
Theorem unallocated_ids_are_rejected (e : env) (id id2 lvl : Z) (s : state) :
  reachable s ->
  (verificationCount s <= id ->
   (forall c,
      c = GetVerificationInfo id \/ c = VerifyIncomeThreshold id lvl \/
      c = CompareIncomes id id2 \/ c = DeactivateVerification id ->
      execute c e s = (Revert (Error "Invalid verification ID"), s)) /\
   execute (IsVerificationValid id) e s = (Done (RBool false), s) /\
   execute (ReadVerifications id) e s = (Done (RVerification zero_verification), s)) /\
  (requestCounter s <= id ->
   execute (GetRequestInfo id) e s = (Revert (Error "Invalid request ID"), s) /\
   execute (ReadVerificationRequests id) e s = (Done (RRequest zero_request), s)).
Proof.
  intros Hr. destruct (reachable_well_formed s Hr) as ((_ & _ & Hreq & Hrec) & _).
  split.
  - intros Hge.
    assert (Hout : forall A (k : M A),
              (validVerification e id;; k) s =
              (Revert (Error "Invalid verification ID"), s)).
    { intros A k. rewrite gated_run.
      by assert ((id <? verificationCount s) = false) as -> by lia. }
    split; [| split].
    + intros c [-> | [-> | [-> | ->]]];
        unfold execute, body, getVerificationInfo, verifyIncomeThreshold,
          compareIncomes, deactivateVerification, external_call, fmap, M_fmap;
        try (rewrite Hout; reflexivity).
      unfold mbind at 1, M_bind at 1. rewrite Hout; reflexivity.
    + unfold execute, body, external_call, fmap, M_fmap.
      rewrite isVerificationValid_run.
      by assert ((verificationCount s <=? id) = true) as -> by lia.
    + unfold_contract; simpl. unfold verification_at.
      destruct (verifications s !! id) as [v|] eqn:Hv; [| done].
      assert (is_Some (verifications s !! id)) as Hs by eauto.
      apply Hrec in Hs. lia.
  - intros Hge. split.
    + rewrite getRequestInfo_run.
      by assert ((id <? requestCounter s) = false) as -> by lia.
    + unfold_contract; simpl. unfold request_at.
      destruct (verificationRequests s !! id) as [v|] eqn:Hv; [| done].
      assert (is_Some (verificationRequests s !! id)) as Hs by eauto.
      apply Hreq in Hs. lia.
Qed.

(** X18 on the sample history: ID 1 when only record 0 exists. *)
Lemma unallocated_ids_are_rejected_witness :
  reachable approved /\ verificationCount approved <= 1 /\
  execute (GetVerificationInfo 1) (mkEnv 1 4000) approved =
    (Revert (Error "Invalid verification ID"), approved) /\
  execute (ReadVerifications 1) (mkEnv 1 4000) approved =
    (Done (RVerification zero_verification), approved).
Proof.
  pose proof reachable_approved as H1.
  assert (H2 : verificationCount approved <= 1) by (vm_compute; discriminate).
  split; [exact H1 |]. split; [exact H2 |].
  destruct (unallocated_ids_are_rejected (mkEnv 1 4000) 1 0 10 approved H1)
    as [Hrec _].
  destruct (Hrec H2) as (Hgated & _ & Hread).
  split; [exact (Hgated (GetVerificationInfo 1) (or_introl eq_refl)) | exact Hread].
Defined.

(** X19: in every state of a deployed registry the list returned by
    [getUserRequests] for a user holds exactly the allocated request IDs of
    that user, and the caller who obtained the list gets the request of each
    listed ID from [getRequestInfo]. *)
Theorem listed_requests_can_be_queried (e : env) (u : address) (s : state)
    (l : list Z) :
  reachable s ->
  fst (execute (GetUserRequests u) e s) = Done (RUints l) ->
  (forall id, id ∈ l <->
     0 <= id < requestCounter s /\ requester (request_at s id) = u) /\
  (forall id, id ∈ l ->
     execute (GetRequestInfo id) e s =
     (Done (RRequestInfo
              (mkRequestInfo u (isPending (request_at s id))
                 (requestTime (request_at s id)) (documentHash (request_at s id)))),
      s)).
Proof.
  intros Hr Hdone.
  destruct (reachable_well_formed s Hr) as (_ & _ & [Hidx _] & _).
  apply (proj1 (list_query_done e u s l)) in Hdone as [-> Hwho].
  split; [apply Hidx |].
  intros id Hin. apply Hidx in Hin as [Hid Hown].
  rewrite getRequestInfo_run, Hown.
  assert ((id <? requestCounter s) = true) as -> by lia.
  assert (bool_decide (u = msg_sender e)
          || bool_decide (msg_sender e = verificationAuthority s) = true) as ->.
  { destruct Hwho as [Ho|Ha].
    - by rewrite (bool_decide_eq_true_2 _ Ho).
    - rewrite (bool_decide_eq_true_2 _ Ha). apply orb_true_r. }
  reflexivity.
Qed.

(** X19 on the sample history: the two requests of account 2. *)
Lemma listed_requests_can_be_queried_witness :
  reachable reapproved /\
  fst (execute (GetUserRequests 2) (mkEnv 2 9000) reapproved) = Done (RUints [0; 1]) /\
  execute (GetRequestInfo 1) (mkEnv 2 9000) reapproved =
    (Done (RRequestInfo
             (mkRequestInfo 2 (isPending (request_at reapproved 1))
                (requestTime (request_at reapproved 1))
                (documentHash (request_at reapproved 1)))), reapproved).
Proof.
  pose proof reachable_reapproved as H1.
  assert (H2 : fst (execute (GetUserRequests 2) (mkEnv 2 9000) reapproved) =
               Done (RUints [0; 1])) by (vm_compute; reflexivity).
  split; [exact H1 |]. split; [exact H2 |].
  destruct (listed_requests_can_be_queried (mkEnv 2 9000) 2 reapproved [0; 1]
              H1 H2) as [_ Hq].
  apply (Hq 1). apply list_elem_of_further, list_elem_of_here.
Defined.

(** X20: in every state of a deployed registry the list returned by
    [getUserVerifications] for a user holds exactly the allocated record IDs
    of that user; for each listed ID [getVerificationInfo] returns the
    record to the same caller while it is active and unexpired, and
    otherwise reverts with "Verification not active" or "Verification
    expired". *)
Theorem listed_records_belong_to_user (e : env) (u : address) (s : state)
    (l : list Z) :
  reachable s ->
  fst (execute (GetUserVerifications u) e s) = Done (RUints l) ->
  (forall id, id ∈ l <->
     0 <= id < verificationCount s /\ verifiedUser (verification_at s id) = u) /\
  (forall id, id ∈ l ->
     execute (GetVerificationInfo id) e s =
     if isActive (verification_at s id) then
       if block_timestamp e <=? expiryTime (verification_at s id)
       then (Done (RVerificationInfo (info_of (verification_at s id))), s)
       else (Revert (Error "Verification expired"), s)
     else (Revert (Error "Verification not active"), s)).
Proof.
  intros Hr Hdone.
  destruct (reachable_well_formed s Hr) as (_ & _ & [_ Hidx] & _).
  apply (proj2 (list_query_done e u s l)) in Hdone as [-> Hwho].
  split; [apply Hidx |].
  intros id Hin. apply Hidx in Hin as [Hid Hown].
  destruct (isActive (verification_at s id)) eqn:Hact;
    [destruct (Z.leb_spec (block_timestamp e) (expiryTime (verification_at s id)))
       as [Hle|Hgt] |].
  - apply getVerificationInfo_run; [repeat split; (lia || done) |].
    rewrite Hown. destruct Hwho; auto.
  - unfold execute, body, getVerificationInfo, external_call, fmap, M_fmap.
    rewrite gated_run, Hact.
    assert ((id <? verificationCount s) = true) as -> by lia.
    by assert ((block_timestamp e <=? expiryTime (verification_at s id)) = false)
      as -> by lia.
  - unfold execute, body, getVerificationInfo, external_call, fmap, M_fmap.
    rewrite gated_run, Hact.
    by assert ((id <? verificationCount s) = true) as -> by lia.
Qed.

(** X20 on the sample history: account 2 is listed record 0, which it
    deactivated and can no longer read. *)
Lemma listed_records_belong_to_user_witness :
  reachable reapproved /\
  fst (execute (GetUserVerifications 2) (mkEnv 2 9000) reapproved) =
    Done (RUints [0; 1]) /\
  verifiedUser (verification_at reapproved 0) = 2 /\
  execute (GetVerificationInfo 0) (mkEnv 2 9000) reapproved =
    (Revert (Error "Verification not active"), reapproved).
Proof.
  pose proof reachable_reapproved as H1.
  assert (H2 : fst (execute (GetUserVerifications 2) (mkEnv 2 9000) reapproved) =
               Done (RUints [0; 1])) by (vm_compute; reflexivity).
  split; [exact H1 |]. split; [exact H2 |].
  destruct (listed_records_belong_to_user (mkEnv 2 9000) 2 reapproved [0; 1]
              H1 H2) as [Hown Hq].
  assert (Hin : 0 ∈ [0; 1]) by apply list_elem_of_here.
  split; [exact (proj2 (proj1 (Hown 0) Hin)) |].
  rewrite (Hq 0 Hin).
  assert (isActive (verification_at reapproved 0) = false) as ->
    by (vm_compute; reflexivity).
  reflexivity.
Defined.

(** X21: in every state of a deployed registry the lists returned by
    [getUserRequests] and [getUserVerifications] are strictly ascending, so
    they are in order of creation and hold no ID twice. *)
Theorem user_lists_ascending (e : env) (u : address) (s : state) (l : list Z) :
  reachable s ->
  (fst (execute (GetUserRequests u) e s) = Done (RUints l) ->
   StronglySorted Z.lt l) /\
  (fst (execute (GetUserVerifications u) e s) = Done (RUints l) ->
   StronglySorted Z.lt l).
Proof.
  intros Hr. pose proof (reachable_ascending s Hr u) as [Hreq Hrec].
  split; intros Hdone.
  - by apply (proj1 (list_query_done e u s l)) in Hdone as [-> _].
  - by apply (proj2 (list_query_done e u s l)) in Hdone as [-> _].
Qed.

(** X21 on the sample history: the request list of account 2. *)
Lemma user_lists_ascending_witness :
  reachable reapproved /\
  fst (execute (GetUserRequests 2) (mkEnv 1 9000) reapproved) = Done (RUints [0; 1]) /\
  StronglySorted Z.lt [0; 1].
Proof.
  pose proof reachable_reapproved as H1.
  assert (H2 : fst (execute (GetUserRequests 2) (mkEnv 1 9000) reapproved) =
               Done (RUints [0; 1])) by (vm_compute; reflexivity).
  split; [exact H1 |]. split; [exact H2 |].
  exact (proj1 (user_lists_ascending (mkEnv 1 9000) 2 reapproved [0; 1] H1) H2).
Defined.

(** X22: in every state of a deployed registry a successful submission
    raises the result of [getPendingRequestCount] by one, a successful
    approval or rejection lowers it by one, and the other writing calls
    leave it; the count is not negative, and the records and the pending
    requests together never outnumber the requests. *)
Theorem pending_count_tracks (c : call) (e e' : env) (s s' : state)
    (r : returndata) :
  reachable s -> writes c -> execute c e s = (Done r, s') ->
  exists n,
    execute GetPendingRequestCount e' s = (Done (RUint n), s) /\
    execute GetPendingRequestCount e' s' = (Done (RUint (n + pending_delta c)), s') /\
    0 <= n /\ verificationCount s + n <= requestCounter s.
Proof.
  intros Hr Hw Hok. apply success_changes in Hok; [| done].
  destruct (reachable_well_formed s Hr) as (Hal & _ & _ & Hcov).
  exists (Z.of_nat (length (pending_ids s))).
  split; [reflexivity |]. split.
  - rewrite <- (pending_ids_step e s c s' Hal Hok). reflexivity.
  - split; [lia | exact Hcov].
Qed.

(** X22 on the sample history: approving request 0. *)
Lemma pending_count_tracks_witness :
  reachable submitted /\
  execute (ProcessVerificationRequest 0 "employerHashX" true) (mkEnv 1 3000)
    submitted = (Done RNone, approved) /\
  exists n,
    execute GetPendingRequestCount (mkEnv 3 3500) submitted =
      (Done (RUint n), submitted) /\
    execute GetPendingRequestCount (mkEnv 3 3500) approved =
      (Done (RUint (n + -1)), approved) /\
    0 <= n /\ verificationCount submitted + n <= requestCounter submitted.
Proof.
  pose proof reachable_submitted as H1.
  assert (H2 : execute (ProcessVerificationRequest 0 "employerHashX" true)
                 (mkEnv 1 3000) submitted = (Done RNone, approved))
    by (vm_compute; reflexivity).
  split; [exact H1 |]. split; [exact H2 |].
  exact (pending_count_tracks (ProcessVerificationRequest 0 "employerHashX" true)
           (mkEnv 1 3000) (mkEnv 3 3500) submitted approved RNone H1 I H2).
Defined.

(** X23: in every state of a deployed registry, seen at the time of the
    call, a successful approval raises the result of
    [getActiveVerificationCount] by one, a successful deactivation lowers it
    by one, and the other writing calls leave it; the count lies between
    zero and [verificationCount]. *)
Theorem active_count_tracks (c : call) (e : env) (s s' : state) (r : returndata) :
  reachable s -> writes c -> execute c e s = (Done r, s') ->
  exists n,
    execute GetActiveVerificationCount e s = (Done (RUint n), s) /\
    execute GetActiveVerificationCount e s' = (Done (RUint (n + active_delta c)), s') /\
    0 <= n <= verificationCount s.
Proof.
  intros Hr Hw Hok. apply success_changes in Hok; [| done].
  destruct (reachable_well_formed s Hr) as (Hal & Hsound & _).
  exists (Z.of_nat (length (active_ids e s))).
  split; [reflexivity |]. split.
  - rewrite <- (active_ids_step e s c s' Hal Hsound Hok). reflexivity.
  - split; [lia |]. destruct Hal as (_ & Hvc & _).
    unfold active_ids. by apply filter_seqZ_bound.
Qed.

(** X23 on the sample history: deactivating record 0. *)
Lemma active_count_tracks_witness :
  reachable approved /\
  execute (DeactivateVerification 0) (mkEnv 2 5000) approved =
    (Done RNone, deactivated) /\
  exists n,
    execute GetActiveVerificationCount (mkEnv 2 5000) approved =
      (Done (RUint n), approved) /\
    execute GetActiveVerificationCount (mkEnv 2 5000) deactivated =
      (Done (RUint (n + -1)), deactivated) /\
    0 <= n <= verificationCount approved.
Proof.
  pose proof reachable_approved as H1.
  assert (H2 : execute (DeactivateVerification 0) (mkEnv 2 5000) approved =
               (Done RNone, deactivated)) by (vm_compute; reflexivity).
  split; [exact H1 |]. split; [exact H2 |].
  exact (active_count_tracks (DeactivateVerification 0) (mkEnv 2 5000) approved
           deactivated RNone H1 I H2).
Defined.

(** X24: in every state of a deployed registry a grant to an account is a
    grant to the requester of an allocated request on one of that request's
    two handles: the contract grants nobody else, the authority included. *)
Theorem grants_only_to_requesters (s : state) (h : euint8) (a : address) :
  reachable s -> (h, Account a) ∈ acl s ->
  exists rid,
    rid < requestCounter s /\ requester (request_at s rid) = a /\
    (claimedIncomeLevel (request_at s rid) = h \/
     employmentDuration (request_at s rid) = h).
Proof.
  intros [e0 Hlater] Hin.
  assert (Hacl : acl_sound s).
  { apply (later_invariant acl_sound) with (s := constructor e0); [| done |].
    - intros e s0 c s0' H0 Hch. by apply (acl_sound_step e s0 c).
    - intros h0 g0 H0. simpl in H0. by apply elem_of_nil in H0. }
  destruct (Hacl h (Account a) Hin) as [? | (rid & Hrid & [= ->] & Hh)]; [done |].
  exists rid. split; [done |]. split; [done |]. destruct Hh; auto.
Qed.

(** X24 on the sample history: the grant on the income handle of
    request 0. *)
Lemma grants_only_to_requesters_witness :
  reachable submitted /\ (euint8_of 5, Account 2) ∈ acl submitted /\
  exists rid,
    rid < requestCounter submitted /\ requester (request_at submitted rid) = 2 /\
    (claimedIncomeLevel (request_at submitted rid) = euint8_of 5 \/
     employmentDuration (request_at submitted rid) = euint8_of 5).
Proof.
  pose proof reachable_submitted as H1.
  assert (H2 : (euint8_of 5, Account 2) ∈ acl submitted).
  { assert (acl submitted =
            [(euint8_of 5, This); (euint8_of 48, This);
             (euint8_of 5, Account 2); (euint8_of 48, Account 2)]) as ->
      by (vm_compute; reflexivity).
    apply list_elem_of_further, list_elem_of_further, list_elem_of_here. }
  split; [exact H1 |]. split; [exact H2 |].
  exact (grants_only_to_requesters submitted (euint8_of 5) 2 H1 H2).
Defined.
